(** * farm_optimizer: a shallow embedding of [src/farm_optimizer.py]

    The Python module defines a resource snapshot, a catalogue of projects
    and infrastructure upgrades, five pure estimators and one monthly
    projection loop.  Every method of [FarmOptimizer] is translated below as
    a function over explicit records.  The catalogue of upgrades is the
    literal of [_initialize_upgrades]; the catalogue of projects is a field
    of the optimiser, so that the methods are stated over any catalogue (the
    literal of [_initialize_projects] repeats keyword arguments in its first
    entry and is not translated).

    Conventions of the embedding:
    - a Python [float] (and an [int] that is only used in float arithmetic)
      is an exact rational of [Q]; rounding is outside the model, and numeric
      results are compared with [==];
    - a statement that can raise returns a [result]: [Ok v] or [Raise e]
      with the Python exception class;
    - a [dict] is an association list in insertion order, read by its first
      binding;
    - instance attributes that no constructor sets are optional fields;
    - mutation of [self.resources] and of the catalogue objects is explicit
      state passing through the loop. *)

From Stdlib Require Import QArith ZArith List String Bool Lia Lqa.
From Stdlib Require Import Ascii DecimalString.
Import ListNotations.

Open Scope string_scope.
Open Scope Q_scope.

(** ** Exceptions and the error monad *)

Inductive exn : Type :=
| AttributeError
| NameError
| ZeroDivisionError
| KeyError
| TypeError
| ValueError.

Inductive result (A : Type) : Type :=
| Ok (a : A)
| Raise (e : exn).

Arguments Ok {A} a.
Arguments Raise {A} e.

Definition bind {A B : Type} (r : result A) (k : A -> result B) : result B :=
  match r with
  | Ok a => k a
  | Raise e => Raise e
  end.

Notation "x <- c ;; k" := (bind c (fun x => k))
  (at level 61, c at next level, right associativity).

Definition fmap {A B : Type} (f : A -> B) (r : result A) : result B :=
  match r with
  | Ok a => Ok (f a)
  | Raise e => Raise e
  end.

(** A [for] loop whose body can raise: the accumulator is threaded through
    the elements from left to right and the first exception ends the loop. *)
Fixpoint for_each {A S : Type} (body : S -> A -> result S) (l : list A) (s : S)
  : result S :=
  match l with
  | [] => Ok s
  | x :: l' => s' <- body s x ;; for_each body l' s'
  end.

(** ** Python numerics *)

(** [a / b] on floats raises on a zero divisor. *)
Definition py_div (a b : Q) : result Q :=
  if Qeq_bool b 0 then Raise ZeroDivisionError else Ok (a / b).

Definition Qlt_bool (a b : Q) : bool := negb (Qle_bool b a).

(** [sum(xs)]: starts from 0 and adds from the left. *)
Definition py_sum (xs : list Q) : Q := fold_left Qplus xs 0.

(** [sum] over a generator whose items can raise. *)
Definition py_sum_r {A : Type} (f : A -> result Q) (l : list A) : result Q :=
  for_each (fun acc x => v <- f x ;; Ok (acc + v)) l 0.

(** [max(x, *rest)]: the running maximum is replaced only by a strictly
    greater item, so the first maximal item is returned. *)
Definition py_max (x : Q) (rest : list Q) : Q :=
  fold_left (fun best y => if Qlt_bool best y then y else best) rest x.

(** [max(items, key=...)] on items already paired with their keys. *)
Definition py_max_by {A : Type} (x : A * Q) (rest : list (A * Q)) : A :=
  fst (fold_left (fun best y => if Qlt_bool (snd best) (snd y) then y else best)
                 rest x).

(** ** Dictionaries *)

Definition dict (K V : Type) : Type := list (K * V).

Fixpoint dict_get {K V : Type} (eqb : K -> K -> bool) (k : K) (d : dict K V)
  : option V :=
  match d with
  | [] => None
  | (k', v) :: d' => if eqb k k' then Some v else dict_get eqb k d'
  end.

(** [d[k]] *)
Definition dict_item {K V : Type} (eqb : K -> K -> bool) (k : K) (d : dict K V)
  : result V :=
  match dict_get eqb k d with
  | Some v => Ok v
  | None => Raise KeyError
  end.

(** [k in d] *)
Definition dict_mem {K V : Type} (eqb : K -> K -> bool) (k : K) (d : dict K V)
  : bool :=
  match dict_get eqb k d with
  | Some _ => true
  | None => false
  end.

Definition dict_values {K V : Type} (d : dict K V) : list V := map snd d.

Definition option_eqb {V : Type} (veqb : V -> V -> bool) (a b : option V) : bool :=
  match a, b with
  | Some x, Some y => veqb x y
  | None, None => true
  | _, _ => false
  end.

(** [d1 == d2] on dictionaries: the same keys with the same values, whatever
    the insertion order. *)
Definition dict_eqb {K V : Type} (keqb : K -> K -> bool) (veqb : V -> V -> bool)
  (d1 d2 : dict K V) : bool :=
  forallb (fun k => option_eqb veqb (dict_get keqb k d1) (dict_get keqb k d2))
          (map fst d1 ++ map fst d2).

Fixpoint list_eqb {A : Type} (eqb : A -> A -> bool) (l1 l2 : list A) : bool :=
  match l1, l2 with
  | [], [] => true
  | x :: l1', y :: l2' => eqb x y && list_eqb eqb l1' l2'
  | _, _ => false
  end.

(** ** Enumerations *)

Inductive PowerTimeOfUse : Type := DAYTIME_ONLY | NIGHT_ONLY | ANY_TIME.

Definition PowerTimeOfUse_eqb (a b : PowerTimeOfUse) : bool :=
  match a, b with
  | DAYTIME_ONLY, DAYTIME_ONLY | NIGHT_ONLY, NIGHT_ONLY | ANY_TIME, ANY_TIME => true
  | _, _ => false
  end.

Inductive Season : Type := SPRING | SUMMER | FALL | WINTER.

Definition Season_eqb (a b : Season) : bool :=
  match a, b with
  | SPRING, SPRING | SUMMER, SUMMER | FALL, FALL | WINTER, WINTER => true
  | _, _ => false
  end.

Definition all_seasons : list Season := [SPRING; SUMMER; FALL; WINTER].

Definition Season_value (s : Season) : string :=
  match s with
  | SPRING => "spring"
  | SUMMER => "summer"
  | FALL => "fall"
  | WINTER => "winter"
  end.

(** [Season(value)]: lookup of a member by its value. *)
Definition Season_of_value (v : string) : result Season :=
  match find (fun s => String.eqb (Season_value s) v) all_seasons with
  | Some s => Ok s
  | None => Raise ValueError
  end.

(** [Season.from_month]: the table is indexed by [month % 4]. *)
Definition from_month (month : nat) : Season :=
  match (month mod 4)%nat with
  | 0%nat => SPRING
  | 1%nat => SUMMER
  | 2%nat => FALL
  | _ => WINTER
  end.

(** ** Records of the data model *)

Record PowerUsage : Type := mkPowerUsage {
  kwh_daily : Q;
  time_of_use : PowerTimeOfUse
}.

(** The field [name] of a market connection and of an upgrade is [mc_name]
    and [iu_name]; [name] is the one of a project. *)
Record MarketConnection : Type := mkMarketConnection {
  mc_name : string;
  product_types : list string;
  sales_multiplier : Q
}.

(** [has_automation_skills] is a [bool] in the source; a Python [bool] is a
    number ([True] is 1) and [setattr] may replace it by a float, so the
    field holds a number that is read through its truth value. *)
Record Resources : Type := mkResources {
  solar_power_kw : Q;
  battery_capacity_kwh : Q;
  daytime_power_available_kwh : Q;
  water_distance_miles : Q;
  truck_mpg : Q;
  initial_soil : Q;
  available_money_monthly : Q;
  investment_period_months : Q;
  work_hours_daily : Q * Q;
  outdoor_space_acres : Q;
  indoor_space_sqft : Q;
  has_automation_skills : Q;
  climate_controlled_sqft : Q;
  market_connections : option (list MarketConnection);
  reinvestment_rate : Q;
  target_savings : Q
}.

Definition py_True : Q := 1.
Definition py_False : Q := 0.
Definition truthy (q : Q) : bool := negb (Qeq_bool q 0).

(** [seasonal_benefits] is the table after [__post_init__], which replaces a
    missing table by one that maps every season to 1. *)
Record InfrastructureUpgrade : Type := mkInfrastructureUpgrade {
  iu_name : string;
  cost : Q;
  resource_impacts : dict string Q;
  monthly_operating_cost : Q;
  seasonal_benefits : dict Season Q
}.

(** [funded_so_far] is not a field of the dataclass: it is an instance
    attribute that the loop reads and that no constructor sets, so it is
    [None] on every object built by [Project(...)]. *)
Record Project : Type := mkProject {
  name : string;
  setup_cost : Q;
  monthly_cost : Q;
  monthly_revenue : Q;
  monthly_savings : Q;
  space_required_sqft : Q;
  is_indoor : bool;
  daily_hours : Q;
  water_gallons_daily : Q;
  power_usage : PowerUsage;
  startup_time_months : Z;
  knowledge_required : Z;
  sustainability_score : Z;
  synergy_projects : list string;
  scalability : Z;
  automation_potential : Z;
  product_type : string;
  base_sales_probability : Q;
  seasonal_multipliers : dict Season Q;
  climate_controlled_benefit : Q;
  current_stage : string;
  funded_so_far : option Q
}.

Definition set_current_stage (st : string) (p : Project) : Project :=
  mkProject (name p) (setup_cost p) (monthly_cost p) (monthly_revenue p)
    (monthly_savings p) (space_required_sqft p) (is_indoor p) (daily_hours p)
    (water_gallons_daily p) (power_usage p) (startup_time_months p)
    (knowledge_required p) (sustainability_score p) (synergy_projects p)
    (scalability p) (automation_potential p) (product_type p)
    (base_sales_probability p) (seasonal_multipliers p)
    (climate_controlled_benefit p) st (funded_so_far p).

Definition set_startup_time_months (n : Z) (p : Project) : Project :=
  mkProject (name p) (setup_cost p) (monthly_cost p) (monthly_revenue p)
    (monthly_savings p) (space_required_sqft p) (is_indoor p) (daily_hours p)
    (water_gallons_daily p) (power_usage p) n
    (knowledge_required p) (sustainability_score p) (synergy_projects p)
    (scalability p) (automation_potential p) (product_type p)
    (base_sales_probability p) (seasonal_multipliers p)
    (climate_controlled_benefit p) (current_stage p) (funded_so_far p).

Definition set_monthly_revenue (v : Q) (p : Project) : Project :=
  mkProject (name p) (setup_cost p) (monthly_cost p) v
    (monthly_savings p) (space_required_sqft p) (is_indoor p) (daily_hours p)
    (water_gallons_daily p) (power_usage p) (startup_time_months p)
    (knowledge_required p) (sustainability_score p) (synergy_projects p)
    (scalability p) (automation_potential p) (product_type p)
    (base_sales_probability p) (seasonal_multipliers p)
    (climate_controlled_benefit p) (current_stage p) (funded_so_far p).

Definition set_funded_so_far (v : Q) (p : Project) : Project :=
  mkProject (name p) (setup_cost p) (monthly_cost p) (monthly_revenue p)
    (monthly_savings p) (space_required_sqft p) (is_indoor p) (daily_hours p)
    (water_gallons_daily p) (power_usage p) (startup_time_months p)
    (knowledge_required p) (sustainability_score p) (synergy_projects p)
    (scalability p) (automation_potential p) (product_type p)
    (base_sales_probability p) (seasonal_multipliers p)
    (climate_controlled_benefit p) (current_stage p) (Some v).

(** [Project.update_stage] *)
Definition update_stage (p : Project) : Project :=
  if String.eqb (current_stage p) "setup" && Z.eqb (startup_time_months p) 0
  then set_current_stage "production" p
  else if String.eqb (current_stage p) "setup"
       then set_startup_time_months (startup_time_months p - 1) p
       else p.

(** ** Equality of dataclass instances

    A dataclass compares the tuples of its declared fields. *)

Definition PowerUsage_eqb (a b : PowerUsage) : bool :=
  Qeq_bool (kwh_daily a) (kwh_daily b)
  && PowerTimeOfUse_eqb (time_of_use a) (time_of_use b).

Definition InfrastructureUpgrade_eqb (a b : InfrastructureUpgrade) : bool :=
  String.eqb (iu_name a) (iu_name b)
  && Qeq_bool (cost a) (cost b)
  && dict_eqb String.eqb Qeq_bool (resource_impacts a) (resource_impacts b)
  && Qeq_bool (monthly_operating_cost a) (monthly_operating_cost b)
  && dict_eqb Season_eqb Qeq_bool (seasonal_benefits a) (seasonal_benefits b).

Definition Project_eqb (a b : Project) : bool :=
  String.eqb (name a) (name b)
  && Qeq_bool (setup_cost a) (setup_cost b)
  && Qeq_bool (monthly_cost a) (monthly_cost b)
  && Qeq_bool (monthly_revenue a) (monthly_revenue b)
  && Qeq_bool (monthly_savings a) (monthly_savings b)
  && Qeq_bool (space_required_sqft a) (space_required_sqft b)
  && Bool.eqb (is_indoor a) (is_indoor b)
  && Qeq_bool (daily_hours a) (daily_hours b)
  && Qeq_bool (water_gallons_daily a) (water_gallons_daily b)
  && PowerUsage_eqb (power_usage a) (power_usage b)
  && Z.eqb (startup_time_months a) (startup_time_months b)
  && Z.eqb (knowledge_required a) (knowledge_required b)
  && Z.eqb (sustainability_score a) (sustainability_score b)
  && list_eqb String.eqb (synergy_projects a) (synergy_projects b)
  && Z.eqb (scalability a) (scalability b)
  && Z.eqb (automation_potential a) (automation_potential b)
  && String.eqb (product_type a) (product_type b)
  && Qeq_bool (base_sales_probability a) (base_sales_probability b)
  && dict_eqb Season_eqb Qeq_bool (seasonal_multipliers a) (seasonal_multipliers b)
  && Qeq_bool (climate_controlled_benefit a) (climate_controlled_benefit b)
  && String.eqb (current_stage a) (current_stage b).

(** [x in xs] on a list of dataclass instances. *)
Definition py_in {A : Type} (eqb : A -> A -> bool) (x : A) (xs : list A) : bool :=
  existsb (eqb x) xs.

(** [s in xs] on a list of strings. *)
Definition str_in (s : string) (xs : list string) : bool :=
  existsb (String.eqb s) xs.

(** ** The optimiser object

    Each key of the project catalogue holds an object of its own, as in
    [_initialize_projects], where every entry is built by a call of
    [Project(...)]; one object stored under two keys is not modelled. *)

Record FarmOptimizer : Type := mkFarmOptimizer {
  resources : Resources;
  projects : dict string Project;
  infrastructure_upgrades : dict string InfrastructureUpgrade
}.

(** [FarmOptimizer._initialize_upgrades] *)
Definition _initialize_upgrades : dict string InfrastructureUpgrade :=
  [ ("well",
     mkInfrastructureUpgrade "Water Well Installation" 25000
       [("water_cost", -(1))] 50
       [(SPRING, 1); (SUMMER, 1); (FALL, 1); (WINTER, 1)]);
    ("greenhouse",
     mkInfrastructureUpgrade "Greenhouse Construction" 5000
       [("climate_controlled_sqft", 500); ("indoor_space_sqft", 500)] 100
       [(SPRING, 12 # 10); (SUMMER, 1); (FALL, 13 # 10); (WINTER, 15 # 10)]);
    ("hoop_house",
     mkInfrastructureUpgrade "Hoop House" 2000
       [("indoor_space_sqft", 300)] 30
       [(SPRING, 13 # 10); (SUMMER, 11 # 10); (FALL, 12 # 10); (WINTER, 12 # 10)]) ].

(** [FarmOptimizer.check_power_feasibility] *)
Definition daytime_power (ps : list Project) : Q :=
  py_sum (map (fun p => kwh_daily (power_usage p))
              (filter (fun p => PowerTimeOfUse_eqb (time_of_use (power_usage p))
                                                   DAYTIME_ONLY) ps)).

Definition battery_power (ps : list Project) : Q :=
  py_sum (map (fun p => kwh_daily (power_usage p))
              (filter (fun p =>
                         existsb (PowerTimeOfUse_eqb (time_of_use (power_usage p)))
                                 [NIGHT_ONLY; ANY_TIME]) ps)).

Definition check_power_feasibility (self : FarmOptimizer) (ps : list Project)
  : bool :=
  Qle_bool (daytime_power ps) (daytime_power_available_kwh (resources self))
  && Qle_bool (battery_power ps)
              (battery_capacity_kwh (resources self) * (8 # 10)).

(** [FarmOptimizer.calculate_water_costs] *)
Definition calculate_water_costs (self : FarmOptimizer) (gallons_daily : Q)
  : result Q :=
  let trips_per_month := (gallons_daily * 30) / 100 in
  let miles_per_month :=
    trips_per_month * water_distance_miles (resources self) * 2 in
  gas_cost_per_mile <- py_div (35 # 10) (truck_mpg (resources self)) ;;
  Ok (miles_per_month * gas_cost_per_mile).

(** [FarmOptimizer.calculate_market_adjusted_revenue] *)
Definition relevant_connections (self : FarmOptimizer) (project : Project)
  : list MarketConnection :=
  match market_connections (resources self) with
  | Some conns =>
      filter (fun conn => str_in (product_type project) (product_types conn)) conns
  | None => []
  end.

Definition calculate_market_adjusted_revenue (self : FarmOptimizer)
  (project : Project) (season : Season) : result Q :=
  let base_revenue := monthly_revenue project in
  m <- dict_item Season_eqb season (seasonal_multipliers project) ;;
  let revenue := base_revenue * m in
  let revenue :=
    if is_indoor project
       && Qle_bool (space_required_sqft project)
                   (climate_controlled_sqft (resources self))
    then revenue * climate_controlled_benefit project
    else revenue in
  let revenue :=
    match map sales_multiplier (relevant_connections self project) with
    | [] => revenue
    | x :: rest => revenue * py_max x rest
    end in
  Ok (revenue * base_sales_probability project).

(** [FarmOptimizer.calculate_infrastructure_roi]: the season of a month is
    [Season(["spring", "summer", "fall", "winter"][month % 4])]. *)
Definition roi_season (month : nat) : result Season :=
  Season_of_value (nth (month mod 4) (map Season_value all_seasons) "").

Definition roi_project_benefit (self : FarmOptimizer)
  (upgrade : InfrastructureUpgrade) (season : Season)
  (total_benefit : Q) (project : Project) : result Q :=
  if is_indoor project then
    current_revenue <- calculate_market_adjusted_revenue self project season ;;
    if dict_mem String.eqb "climate_controlled_sqft" (resource_impacts upgrade)
    then
      b <- dict_item Season_eqb season (seasonal_benefits upgrade) ;;
      let revenue_with_upgrade := current_revenue * b in
      Ok (total_benefit + (revenue_with_upgrade - current_revenue))
    else Ok total_benefit
  else Ok total_benefit.

Definition roi_month_benefit (self : FarmOptimizer)
  (upgrade : InfrastructureUpgrade) (current_projects : list Project)
  (total_benefit : Q) (month : nat) : result Q :=
  season <- roi_season month ;;
  for_each (roi_project_benefit self upgrade season) current_projects
           total_benefit.

(** The two nested loops that accumulate [total_benefit]. *)
Definition roi_total_benefit (self : FarmOptimizer)
  (upgrade : InfrastructureUpgrade) (current_projects : list Project)
  (projection_months : Z) : result Q :=
  for_each (roi_month_benefit self upgrade current_projects)
           (seq 0 (Z.to_nat projection_months)) 0.

Definition roi_total_cost (upgrade : InfrastructureUpgrade)
  (projection_months : Z) : Q :=
  cost upgrade + monthly_operating_cost upgrade * inject_Z projection_months.

Definition calculate_infrastructure_roi (self : FarmOptimizer)
  (upgrade : InfrastructureUpgrade) (current_projects : list Project)
  (projection_months : Z) : result Q :=
  let total_cost := roi_total_cost upgrade projection_months in
  total_benefit <-
    roi_total_benefit self upgrade current_projects projection_months ;;
  if Qlt_bool 0 total_cost
  then Ok ((total_benefit - total_cost) / total_cost)
  else Ok 0.

(** [FarmOptimizer.calculate_project_score] *)
Definition synergy_bonus (project : Project) (selected_projects : list Project)
  : Q :=
  py_sum (map (fun _ => 1)
              (filter (fun p => str_in (name project) (synergy_projects p)
                                || str_in (name p) (synergy_projects project))
                      selected_projects)).

Definition calculate_project_score (self : FarmOptimizer) (project : Project)
  (selected_projects : list Project) : result Q :=
  monthly_water_cost <- calculate_water_costs self (water_gallons_daily project) ;;
  let monthly_profit :=
    monthly_revenue project + monthly_savings project
    - monthly_cost project - monthly_water_cost in
  simple_roi <- py_div monthly_profit (setup_cost project) ;;
  let automation_bonus :=
    if truthy (has_automation_skills (resources self))
    then inject_Z (automation_potential project) / 10
    else 0 in
  let scalability_bonus := inject_Z (scalability project) / 10 in
  Ok (simple_roi * (4 # 10)
      + synergy_bonus project selected_projects * (2 # 10)
      + automation_bonus * (2 # 10)
      + scalability_bonus * (2 # 10)).

(** ** Applying an upgrade to the resources

    [hasattr], [getattr] and [setattr] on the dataclass fields of
    [Resources].  The two fields that hold a tuple and a list cannot be
    added to a float.  For a name that does not start with an underscore
    this is Python's [hasattr]: an instance of the dataclass has no public
    attribute besides its fields.  The special attributes of the instance
    ([__doc__], [__class__], ...), whose list depends on the Python version,
    are not modelled; statements about the keys of an impact map are made
    for public names ([public_name] below). *)

Definition Resources_fields : list string :=
  [ "solar_power_kw"; "battery_capacity_kwh"; "daytime_power_available_kwh";
    "water_distance_miles"; "truck_mpg"; "initial_soil";
    "available_money_monthly"; "investment_period_months"; "work_hours_daily";
    "outdoor_space_acres"; "indoor_space_sqft"; "has_automation_skills";
    "climate_controlled_sqft"; "market_connections"; "reinvestment_rate";
    "target_savings" ].

Definition hasattr (resource : string) : bool := str_in resource Resources_fields.

(** A name that does not start with an underscore. *)
Definition public_name (resource : string) : bool :=
  negb (String.prefix "_" resource).

(** [setattr(r, resource, getattr(r, resource) + impact)] *)
Definition add_to_attr (resource : string) (impact : Q) (r : Resources)
  : result Resources :=
  let '(mkResources sp bc dp wd tm so am ip wh oa isq ha cc mc rr ts) := r in
  if String.eqb resource "solar_power_kw" then
    Ok (mkResources (sp + impact) bc dp wd tm so am ip wh oa isq ha cc mc rr ts)
  else if String.eqb resource "battery_capacity_kwh" then
    Ok (mkResources sp (bc + impact) dp wd tm so am ip wh oa isq ha cc mc rr ts)
  else if String.eqb resource "daytime_power_available_kwh" then
    Ok (mkResources sp bc (dp + impact) wd tm so am ip wh oa isq ha cc mc rr ts)
  else if String.eqb resource "water_distance_miles" then
    Ok (mkResources sp bc dp (wd + impact) tm so am ip wh oa isq ha cc mc rr ts)
  else if String.eqb resource "truck_mpg" then
    Ok (mkResources sp bc dp wd (tm + impact) so am ip wh oa isq ha cc mc rr ts)
  else if String.eqb resource "initial_soil" then
    Ok (mkResources sp bc dp wd tm (so + impact) am ip wh oa isq ha cc mc rr ts)
  else if String.eqb resource "available_money_monthly" then
    Ok (mkResources sp bc dp wd tm so (am + impact) ip wh oa isq ha cc mc rr ts)
  else if String.eqb resource "investment_period_months" then
    Ok (mkResources sp bc dp wd tm so am (ip + impact) wh oa isq ha cc mc rr ts)
  else if String.eqb resource "outdoor_space_acres" then
    Ok (mkResources sp bc dp wd tm so am ip wh (oa + impact) isq ha cc mc rr ts)
  else if String.eqb resource "indoor_space_sqft" then
    Ok (mkResources sp bc dp wd tm so am ip wh oa (isq + impact) ha cc mc rr ts)
  else if String.eqb resource "has_automation_skills" then
    Ok (mkResources sp bc dp wd tm so am ip wh oa isq (ha + impact) cc mc rr ts)
  else if String.eqb resource "climate_controlled_sqft" then
    Ok (mkResources sp bc dp wd tm so am ip wh oa isq ha (cc + impact) mc rr ts)
  else if String.eqb resource "reinvestment_rate" then
    Ok (mkResources sp bc dp wd tm so am ip wh oa isq ha cc mc (rr + impact) ts)
  else if String.eqb resource "target_savings" then
    Ok (mkResources sp bc dp wd tm so am ip wh oa isq ha cc mc rr (ts + impact))
  else Raise TypeError.

Definition apply_impact (r : Resources) (item : string * Q) : result Resources :=
  let '(resource, impact) := item in
  if hasattr resource then add_to_attr resource impact r else Ok r.

(** The [for resource, impact in best_upgrade.resource_impacts.items()] loop. *)
Definition apply_upgrade (upgrade : InfrastructureUpgrade) (r : Resources)
  : result Resources :=
  for_each apply_impact (resource_impacts upgrade) r.

Definition set_resources (r : Resources) (self : FarmOptimizer) : FarmOptimizer :=
  mkFarmOptimizer r (projects self) (infrastructure_upgrades self).

Definition set_projects (ps : dict string Project) (self : FarmOptimizer)
  : FarmOptimizer :=
  mkFarmOptimizer (resources self) ps (infrastructure_upgrades self).

(** ** The monthly projection loop *)

Record MonthlyReport : Type := mkMonthlyReport {
  month : nat;
  actions : list string;
  profit : Q;
  savings : Q
}.

Record FinancialProjection : Type := mkFinancialProjection {
  monthly_details : list MonthlyReport;
  monthly_profits : list Q;
  accumulated_savings : list Q;
  infrastructure_investments : list Q;
  well_savings : list Q
}.

(** The variables that live across iterations of the loop, with [self]
    (whose resources and catalogue objects the loop mutates). *)
Record LoopState : Type := mkLoopState {
  self_ : FarmOptimizer;
  current_projects : list Project;
  planned_upgrades : list InfrastructureUpgrade;
  available_budget : Q;
  accumulated : Q;
  financial_projection : FinancialProjection
}.

(** First inner loop: stage update of the active projects.  The name
    [calculate_monthly_revenue] is bound nowhere in the module, so the
    call in the "production" branch raises. *)
Definition update_active (p : Project) : result Project :=
  let p := update_stage p in
  if String.eqb (current_stage p) "production"
  then Raise NameError
  else Ok (set_monthly_revenue 0 p).

Definition update_actives (ps : list Project) : result (list Project) :=
  for_each (fun done p => p' <- update_active p ;; Ok (done ++ [p'])%list) ps [].

(** Second inner loop: funding of the catalogue projects.  The accumulator
    holds the catalogue entries already visited, the budget and the actions
    of the month.  The test [funded_so_far >= setup_cost] that follows the
    addition always holds in exact arithmetic; on doubles it can fail for a
    counter that was set to a part of the setup cost, so what is stated
    about the stage after funding is stated for a counter of 0, where the
    addition is exact, or for both outcomes of the test. *)
Definition fund_project (current : list Project)
  (acc : dict string Project * Q * list string) (entry : string * Project)
  : result (dict string Project * Q * list string) :=
  let '(visited, budget, acts) := acc in
  let '(key, project) := entry in
  if negb (py_in Project_eqb project current)
     && String.eqb (current_stage project) "setup"
  then
    match funded_so_far project with
    | None => Raise AttributeError
    | Some funded =>
        let required_funds := setup_cost project - funded in
        if Qle_bool required_funds budget then
          let funded' := funded + required_funds in
          let project := set_funded_so_far funded' project in
          let budget := budget - required_funds in
          let project :=
            if Qle_bool (setup_cost project) funded'
            then set_current_stage "growth" project
            else project in
          Ok ((visited ++ [(key, project)])%list, budget,
              (acts ++ [("Funded " ++ name project)%string])%list)
        else Ok ((visited ++ [(key, project)])%list, budget, acts)
    end
  else Ok ((visited ++ [(key, project)])%list, budget, acts).

Definition fund_projects (catalogue : dict string Project)
  (current : list Project) (budget : Q)
  : result (dict string Project * Q * list string) :=
  for_each (fund_project current) catalogue ([], budget, []).

(** The terms of the month's profit. *)
Definition month_revenue (self : FarmOptimizer) (season : Season)
  (current : list Project) : result Q :=
  py_sum_r (fun p => calculate_market_adjusted_revenue self p season) current.

Definition month_costs (current : list Project) : Q :=
  py_sum (map monthly_cost current).

Definition month_water_costs (self : FarmOptimizer) (current : list Project)
  : result Q :=
  py_sum_r (fun p => calculate_water_costs self (water_gallons_daily p)) current.

(** Upgrades not yet planned whose cost fits the reinvestment amount. *)
Definition affordable_upgrades (self : FarmOptimizer)
  (planned : list InfrastructureUpgrade) (reinvestment_amount : Q)
  : list InfrastructureUpgrade :=
  filter (fun upgrade =>
            negb (py_in InfrastructureUpgrade_eqb upgrade planned)
            && Qle_bool (cost upgrade) reinvestment_amount)
         (dict_values (infrastructure_upgrades self)).

(** [max(affordable_upgrades, key=...)]: every key is computed, in order. *)
Definition keyed_upgrades (self : FarmOptimizer) (current : list Project)
  (horizon : Z) (us : list InfrastructureUpgrade)
  : result (list (InfrastructureUpgrade * Q)) :=
  for_each (fun done u =>
              k <- calculate_infrastructure_roi self u current horizon ;;
              Ok (done ++ [(u, k)])%list) us [].

Definition best_upgrade (self : FarmOptimizer) (current : list Project)
  (horizon : Z) (us : list InfrastructureUpgrade)
  : result (option InfrastructureUpgrade) :=
  keyed <- keyed_upgrades self current horizon us ;;
  match keyed with
  | [] => Ok None
  | x :: rest => Ok (Some (py_max_by x rest))
  end.

(** The part of an iteration up to the month's profit: stage updates,
    funding pass, and the three sums. *)
Record MonthTerms : Type := mkMonthTerms {
  mt_self : FarmOptimizer;
  mt_current : list Project;
  mt_budget : Q;
  mt_actions : list string;
  mt_revenue : Q;
  mt_costs : Q;
  mt_water_costs : Q
}.

Definition month_terms (st : LoopState) (month_ : nat) : result MonthTerms :=
  let season := from_month month_ in
  current <- update_actives (current_projects st) ;;
  funded <- fund_projects (projects (self_ st)) current (available_budget st) ;;
  let '(catalogue, budget, acts) := funded in
  let self := set_projects catalogue (self_ st) in
  monthly_revenue <- month_revenue self season current ;;
  let monthly_costs := month_costs current in
  water_costs <- month_water_costs self current ;;
  Ok (mkMonthTerms self current budget acts monthly_revenue monthly_costs
                   water_costs).

(** The upgrade decision of the month: the planned list, the reinvestment
    amount, the resources and the actions after it. *)
Definition implement_upgrade (self : FarmOptimizer) (current : list Project)
  (planned : list InfrastructureUpgrade) (reinvestment_amount : Q)
  (acts : list string) (horizon : Z)
  : result (list InfrastructureUpgrade * Q * Resources * list string) :=
  let affordable := affordable_upgrades self planned reinvestment_amount in
  best <- best_upgrade self current horizon affordable ;;
  match best with
  | Some u =>
      r <- apply_upgrade u (resources self) ;;
      Ok ((planned ++ [u])%list, reinvestment_amount - cost u, r,
          (acts ++ [("Implemented upgrade: " ++ iu_name u)%string])%list)
  | None => Ok (planned, reinvestment_amount, resources self, acts)
  end.

(** The end of an iteration: savings, next budget, report and series. *)
Definition close_month (st : LoopState) (t : MonthTerms) (month_ : nat)
  (chosen : list InfrastructureUpgrade * Q * Resources * list string)
  : LoopState :=
  let monthly_profit := mt_revenue t - mt_costs t - mt_water_costs t in
  let '(planned, reinvestment_amount, r, acts) := chosen in
  let rate := reinvestment_rate r in
  let savings_amount := reinvestment_amount * (1 - rate) in
  let accumulated_savings_ := accumulated st + savings_amount in
  let budget := reinvestment_amount * rate in
  let monthly_report :=
    mkMonthlyReport (month_ + 1) acts monthly_profit accumulated_savings_ in
  let fp := financial_projection st in
  mkLoopState (set_resources r (mt_self t)) (mt_current t) planned budget
    accumulated_savings_
    (mkFinancialProjection
       (monthly_details fp ++ [monthly_report])
       (monthly_profits fp ++ [monthly_profit])
       (accumulated_savings fp ++ [accumulated_savings_])
       (infrastructure_investments fp ++ [py_sum (map cost planned)])
       (well_savings fp ++ [accumulated_savings_]))%list.

(** One iteration of [for month in range(projection_months)]. *)
Definition period (projection_months : Z) (st : LoopState) (month_ : nat)
  : result LoopState :=
  t <- month_terms st month_ ;;
  let monthly_profit := mt_revenue t - mt_costs t - mt_water_costs t in
  let reinvestment_amount := monthly_profit + mt_budget t in
  chosen <- implement_upgrade (mt_self t) (mt_current t) (planned_upgrades st)
              reinvestment_amount (mt_actions t)
              (projection_months - Z.of_nat month_) ;;
  Ok (close_month st t month_ chosen).

Definition initial_state (self : FarmOptimizer) : LoopState :=
  mkLoopState self [] []
    (available_money_monthly (resources self)
     * investment_period_months (resources self))
    0 (mkFinancialProjection [] [] [] [] []).

(** The state at the start of month [k]. *)
Definition state_after (self : FarmOptimizer) (projection_months : Z) (k : nat)
  : result LoopState :=
  for_each (period projection_months) (seq 0 k) (initial_state self).

(** [FarmOptimizer.optimize_with_infrastructure]; the second parameter of the
    method, [aggressive_reinvestment], is read nowhere in its body. *)
Definition optimize_with_infrastructure (self : FarmOptimizer)
  (projection_months : Z)
  : result (list Project * list InfrastructureUpgrade * FinancialProjection) :=
  st <- state_after self projection_months (Z.to_nat projection_months) ;;
  Ok (current_projects st, planned_upgrades st, financial_projection st).

(** ** Construction of an upgrade

    [InfrastructureUpgrade(...)] followed by [__post_init__]: a seasonal
    table passed as [None] is replaced by [{season: 1.0 for season in
    Season}]. *)
Definition new_InfrastructureUpgrade (name_ : string) (cost_ : Q)
  (impacts : dict string Q) (operating_cost : Q)
  (benefits : option (dict Season Q)) : InfrastructureUpgrade :=
  mkInfrastructureUpgrade name_ cost_ impacts operating_cost
    match benefits with
    | Some table => table
    | None => map (fun season => (season, 1)) all_seasons
    end.

(** ** The report

    [FarmOptimizer.generate_enhanced_report].  The text is built from left
    to right.  The rendering of a float with a fixed number of decimals
    ([f"{x:.2f}"], [f"{x:.1f}"]) is a parameter of the section; an integer is
    rendered in decimal.  [xs[-1]] on an empty list raises [IndexError]. *)

Inductive report_result : Type :=
| Report (text : string)
| ReportIndexError
| ReportRaise (e : exn).

Definition nl : string := String "010"%char "".

Definition str_of_int (n : nat) : string :=
  NilZero.string_of_uint (Nat.to_uint n).

(** [xs[-1]] *)
Definition py_last {A : Type} (xs : list A) : option A :=
  match rev xs with
  | x :: _ => Some x
  | [] => None
  end.

Section Report.

Variable format_fixed : nat -> Q -> string.

Definition month_breakdown (detail : MonthlyReport) : string :=
  ("Month " ++ str_of_int (month detail) ++ ":" ++ nl
   ++ String.concat "" (map (fun action => "  - " ++ action ++ nl)
                            (actions detail))
   ++ "  Profit: $" ++ format_fixed 2 (profit detail) ++ nl
   ++ "  Savings: $" ++ format_fixed 2 (savings detail) ++ nl ++ nl)%string.

Definition season_line (self : FarmOptimizer) (project : Project)
  (report : string) (season : Season) : result string :=
  revenue <- calculate_market_adjusted_revenue self project season ;;
  Ok (report ++ "   " ++ Season_value season ++ ": $"
      ++ format_fixed 2 revenue ++ "/month" ++ nl)%string.

Definition project_performance (self : FarmOptimizer) (report : string)
  (project : Project) : result string :=
  for_each (season_line self project) all_seasons
           (report ++ nl ++ name project ++ nl)%string.

Definition generate_enhanced_report (self : FarmOptimizer)
  (projects_ : list Project) (upgrades : list InfrastructureUpgrade)
  (fp : FinancialProjection) : report_result :=
  let report :=
    ("Enhanced Farm Optimization Report" ++ nl ++ nl
     ++ "Financial Projection Summary:" ++ nl
     ++ "Total Months Projected: "
     ++ str_of_int (List.length (monthly_profits fp)) ++ nl)%string in
  match py_last (accumulated_savings fp) with
  | None => ReportIndexError
  | Some final_savings =>
      let report :=
        (report ++ "Final Accumulated Savings: $"
         ++ format_fixed 2 final_savings ++ nl)%string in
      match py_last (infrastructure_investments fp) with
      | None => ReportIndexError
      | Some invested =>
          let report :=
            (report ++ "Total Infrastructure Investment: $"
             ++ format_fixed 2 invested ++ nl)%string in
          match py_last (well_savings fp) with
          | None => ReportIndexError
          | Some well =>
              match py_div well (target_savings (resources self)) with
              | Raise e => ReportRaise e
              | Ok ratio =>
                  let report :=
                    (report ++ "Progress Toward Well: "
                     ++ format_fixed 1 (ratio * 100) ++ "%" ++ nl ++ nl
                     ++ "Monthly Breakdown:" ++ nl
                     ++ String.concat "" (map month_breakdown
                                              (monthly_details fp))
                     ++ "Project Performance by Season:" ++ nl)%string in
                  match for_each (project_performance self) projects_ report
                  with
                  | Ok text => Report text
                  | Raise e => ReportRaise e
                  end
              end
          end
      end
  end.

End Report.

(** ** Concrete inputs used by the examples *)

Module Scenario.

Definition flat : dict Season Q :=
  [(SPRING, 1); (SUMMER, 1); (FALL, 1); (WINTER, 1)].

(** The resources of the example at the end of the module, with the
    water-haul distance and the market connection of the scenarios. *)
Definition res (distance money : Q) (conns : option (list MarketConnection))
  : Resources :=
  mkResources 10 28 35 distance 15 0 money 12 (8, 10) (1 # 2) 200 py_True 0
              conns (7 # 10) 25000.

Definition nursery : MarketConnection :=
  mkMarketConnection "Nursery" ["plants"] (15 # 10).

Definition project (setup : Q) (startup : Z) (draw : Q) : Project :=
  mkProject "Plants" setup 30 100 0 50 false (1 # 2) 10
            (mkPowerUsage draw DAYTIME_ONLY) startup 3 9 [] 6 7 "plants"
            (1 # 2) flat (12 # 10) "setup" None.

(** A project with no startup time that draws 1 kWh a day. *)
Definition plants : Project := project 200 0 1.

(** The same project after [project.funded_so_far = 0] has been executed
    on it by the caller. *)
Definition funded_project : Project := set_funded_so_far 0 plants.

(** A project that draws more than the 35 kWh available by day, and one
    whose draw is negative. *)
Definition heavy_project : Project := project 200 0 40.
Definition feed_in_project : Project := project 200 0 (-(10)).

Definition indoor_project : Project :=
  mkProject "Seedlings" 300 20 1000 20 30 true 1 2
            (mkPowerUsage (4 # 10) ANY_TIME) 2 3 8 [] 7 5 "plants"
            (8 # 10) [(SPRING, 12 # 10); (SUMMER, 1); (FALL, 11 # 10); (WINTER, 1)]
            (12 # 10) "setup" None.

Definition optimizer (r : Resources) (catalogue : dict string Project)
  : FarmOptimizer :=
  mkFarmOptimizer r catalogue _initialize_upgrades.

(** An optimiser with an empty project catalogue. *)
Definition bare : FarmOptimizer := optimizer (res 20 500 None) [].

(** An upgrade that is paid for: its purchase cost is negative. *)
Definition grant : InfrastructureUpgrade :=
  mkInfrastructureUpgrade "Grant" (-(10)) [] 0 flat.

Definition greenhouse : InfrastructureUpgrade :=
  mkInfrastructureUpgrade "Greenhouse Construction" 5000
    [("climate_controlled_sqft", 500); ("indoor_space_sqft", 500)] 100
    [(SPRING, 12 # 10); (SUMMER, 1); (FALL, 13 # 10); (WINTER, 15 # 10)].

Definition greenhouse_benefit : Q :=
  Eval vm_compute in
    match roi_total_benefit bare greenhouse [indoor_project] 2 with
    | Ok b => b
    | Raise _ => 0
    end.

End Scenario.

(** The catalogue entry under the key "well". *)
Definition well_upgrade : InfrastructureUpgrade :=
  mkInfrastructureUpgrade "Water Well Installation" 25000
    [("water_cost", -(1))] 50
    [(SPRING, 1); (SUMMER, 1); (FALL, 1); (WINTER, 1)].

(** ** Notions used to state the properties *)

(** A market connection of the resources that lists the product type of the
    project among its served types. *)
Definition serves (self : FarmOptimizer) (p : Project) (c : MarketConnection)
  : Prop :=
  exists conns,
    market_connections (resources self) = Some conns
    /\ In c conns
    /\ In (product_type p) (product_types c).

(** The project is indoor and fits the climate-controlled space. *)
Definition climate_eligible (self : FarmOptimizer) (p : Project) : Prop :=
  is_indoor p = true
  /\ space_required_sqft p <= climate_controlled_sqft (resources self).

(** The draw of the projects whose time of use is counted by [uses], summed
    project by project. *)
Fixpoint draw_total (uses : PowerTimeOfUse -> bool) (ps : list Project) : Q :=
  match ps with
  | [] => 0
  | p :: ps' =>
      (if uses (time_of_use (power_usage p)) then kwh_daily (power_usage p) else 0)
      + draw_total uses ps'
  end.

Definition daytime_only (t : PowerTimeOfUse) : bool :=
  match t with DAYTIME_ONLY => true | _ => false end.

Definition night_or_any_time (t : PowerTimeOfUse) : bool :=
  match t with NIGHT_ONLY | ANY_TIME => true | DAYTIME_ONLY => false end.

(** Two resource snapshots that agree on every field but the battery
    capacity and the daytime power available. *)
Definition differ_only_in_power (r1 r2 : Resources) : Prop :=
  solar_power_kw r1 = solar_power_kw r2
  /\ water_distance_miles r1 = water_distance_miles r2
  /\ truck_mpg r1 = truck_mpg r2
  /\ initial_soil r1 = initial_soil r2
  /\ available_money_monthly r1 = available_money_monthly r2
  /\ investment_period_months r1 = investment_period_months r2
  /\ work_hours_daily r1 = work_hours_daily r2
  /\ outdoor_space_acres r1 = outdoor_space_acres r2
  /\ indoor_space_sqft r1 = indoor_space_sqft r2
  /\ has_automation_skills r1 = has_automation_skills r2
  /\ climate_controlled_sqft r1 = climate_controlled_sqft r2
  /\ market_connections r1 = market_connections r2
  /\ reinvestment_rate r1 = reinvestment_rate r2
  /\ target_savings r1 = target_savings r2.

(** The snapshot with its two power fields blanked, and the same on the
    values that carry a snapshot through the loop. *)
Definition erase_power (r : Resources) : Resources :=
  mkResources (solar_power_kw r) 0 0 (water_distance_miles r) (truck_mpg r)
    (initial_soil r) (available_money_monthly r) (investment_period_months r)
    (work_hours_daily r) (outdoor_space_acres r) (indoor_space_sqft r)
    (has_automation_skills r) (climate_controlled_sqft r)
    (market_connections r) (reinvestment_rate r) (target_savings r).

Definition erase_self (self : FarmOptimizer) : FarmOptimizer :=
  set_resources (erase_power (resources self)) self.

Definition erase_terms (t : MonthTerms) : MonthTerms :=
  mkMonthTerms (erase_self (mt_self t)) (mt_current t) (mt_budget t)
    (mt_actions t) (mt_revenue t) (mt_costs t) (mt_water_costs t).

Definition erase_decision
  (d : list InfrastructureUpgrade * Q * Resources * list string)
  : list InfrastructureUpgrade * Q * Resources * list string :=
  let '(planned, amount, r, acts) := d in (planned, amount, erase_power r, acts).

Definition erase_state (s : LoopState) : LoopState :=
  mkLoopState (erase_self (self_ s)) (current_projects s) (planned_upgrades s)
    (available_budget s) (accumulated s) (financial_projection s).

(** Two selected projects are linked when either names the other among its
    synergy projects. *)
Definition linked (project other : Project) : bool :=
  str_in (name project) (synergy_projects other)
  || str_in (name other) (synergy_projects project).

(** A project with its stage and its counter blanked: the fields that the
    funding pass does not write. *)
Definition blank_funding (p : Project) : Project :=
  mkProject (name p) (setup_cost p) (monthly_cost p) (monthly_revenue p)
    (monthly_savings p) (space_required_sqft p) (is_indoor p) (daily_hours p)
    (water_gallons_daily p) (power_usage p) (startup_time_months p)
    (knowledge_required p) (sustainability_score p) (synergy_projects p)
    (scalability p) (automation_potential p) (product_type p)
    (base_sales_probability p) (seasonal_multipliers p)
    (climate_controlled_benefit p) "" None.

(** One entry of the catalogue before and after funding passes: the same
    key; a project that differs at most by its stage and its counter; a
    stage that is as before or has gone from "setup" to "growth"; and
    nothing changed at all on a project that was not in "setup". *)
Definition funding_step (before after : string * Project) : Prop :=
  fst after = fst before
  /\ blank_funding (snd after) = blank_funding (snd before)
  /\ (current_stage (snd after) = current_stage (snd before)
      \/ (current_stage (snd before) = "setup"
          /\ current_stage (snd after) = "growth"))
  /\ (current_stage (snd before) <> "setup" -> snd after = snd before).



(** * Properties *)

(** ** Generic facts *)

Lemma Qlt_bool_iff (a b : Q) : Qlt_bool a b = true <-> a < b.
Proof.
  unfold Qlt_bool. rewrite negb_true_iff. split; intro H.
  - apply Qnot_le_lt. intro Hle. apply Qle_bool_iff in Hle. congruence.
  - destruct (Qle_bool b a) eqn:E; [|reflexivity].
    apply Qle_bool_iff in E. exfalso. exact (Qlt_not_le _ _ H E).
Qed.

Lemma Qlt_bool_false_iff (a b : Q) : Qlt_bool a b = false <-> b <= a.
Proof.
  unfold Qlt_bool. rewrite negb_false_iff. apply Qle_bool_iff.
Qed.

Lemma py_div_ok (a b : Q) : ~ b == 0 -> py_div a b = Ok (a / b).
Proof.
  intro H. unfold py_div. destruct (Qeq_bool b 0) eqn:E; [|reflexivity].
  apply Qeq_bool_iff in E. contradiction.
Qed.

Lemma py_div_zero (a b : Q) : b == 0 -> py_div a b = Raise ZeroDivisionError.
Proof.
  intro H. unfold py_div. apply Qeq_bool_iff in H. now rewrite H.
Qed.

(** ** Water transport cost *)

(** C5.  With a fuel economy that can be divided by, the cost of hauling
    [g] gallons a day is (g * 30 / 100) trips, times the round trip of twice
    the one-way distance, times 3.50 over the fuel economy; no gallons cost
    nothing; 10 gallons a day over 20 miles at 15 mpg cost 28. *)
Theorem calculate_water_costs_formula (self : FarmOptimizer) (g : Q) :
  ~ truck_mpg (resources self) == 0 ->
  exists c,
    calculate_water_costs self g = Ok c
    /\ c == ((g * 30) / 100) * (2 * water_distance_miles (resources self))
            * ((35 # 10) / truck_mpg (resources self))
    /\ (g == 0 -> c == 0)
    /\ (g == 10 -> water_distance_miles (resources self) == 20 ->
        truck_mpg (resources self) == 15 -> c == 28).
Proof.
  intro Hmpg. unfold calculate_water_costs.
  rewrite (py_div_ok _ _ Hmpg). cbn [bind].
  eexists. split; [reflexivity|]. split; [|split].
  - field. exact Hmpg.
  - intro Hg. rewrite Hg. field. exact Hmpg.
  - intros Hg Hd Hm. rewrite Hg, Hd, Hm. reflexivity.
Qed.

Lemma calculate_water_costs_formula_witness :
  exists c,
    calculate_water_costs
      Scenario.bare 10 = Ok c
    /\ c == 28.
Proof.
  destruct (calculate_water_costs_formula
              Scenario.bare 10)
    as [c [Hc [_ [_ H28]]]].
  - discriminate.
  - exists c. split; [exact Hc|].
    apply H28; reflexivity.
Defined.

(** ** Revenue model *)

Lemma str_in_iff (s : string) (xs : list string) : str_in s xs = true <-> In s xs.
Proof.
  unfold str_in. rewrite existsb_exists. split.
  - intros [x [Hin Heq]]. apply String.eqb_eq in Heq. now subst.
  - intro Hin. exists s. split; [exact Hin|apply String.eqb_refl].
Qed.

Lemma relevant_connections_iff (self : FarmOptimizer) (p : Project)
  (c : MarketConnection) :
  In c (relevant_connections self p) <-> serves self p c.
Proof.
  unfold relevant_connections, serves.
  destruct (market_connections (resources self)) as [conns|].
  - rewrite filter_In, str_in_iff. split.
    + intros [Hin Hty]. exists conns. auto.
    + intros [conns' [Heq [Hin Hty]]]. injection Heq as <-. auto.
  - split; [intros []|]. intros [conns [Heq _]]. discriminate.
Qed.

Lemma py_max_step (x y : Q) (rest : list Q) :
  py_max x (y :: rest) = py_max (if Qlt_bool x y then y else x) rest.
Proof. reflexivity. Qed.

Lemma py_max_In (rest : list Q) : forall x, In (py_max x rest) (x :: rest).
Proof.
  induction rest as [|y rest IH]; intro x.
  - left. reflexivity.
  - rewrite py_max_step.
    destruct (IH (if Qlt_bool x y then y else x)) as [H|H].
    + destruct (Qlt_bool x y).
      * right. left. exact H.
      * left. exact H.
    + right. right. exact H.
Qed.

Lemma py_max_ge_first (rest : list Q) : forall x, x <= py_max x rest.
Proof.
  induction rest as [|y rest IH]; intro x.
  - apply Qle_refl.
  - rewrite py_max_step. destruct (Qlt_bool x y) eqn:E.
    + apply Qlt_bool_iff in E. apply Qle_trans with y; [now apply Qlt_le_weak|apply IH].
    + apply IH.
Qed.

Lemma py_max_upper (rest : list Q) :
  forall x y, In y (x :: rest) -> y <= py_max x rest.
Proof.
  induction rest as [|z rest IH]; intros x y Hin.
  - destruct Hin as [<-|[]]. apply Qle_refl.
  - rewrite py_max_step. destruct Hin as [<-|[<-|Hin]].
    + destruct (Qlt_bool x z) eqn:E.
      * apply Qlt_bool_iff in E.
        apply Qle_trans with z; [now apply Qlt_le_weak|apply py_max_ge_first].
      * apply py_max_ge_first.
    + destruct (Qlt_bool x z) eqn:E.
      * apply py_max_ge_first.
      * apply Qlt_bool_false_iff in E.
        apply Qle_trans with x; [exact E|apply py_max_ge_first].
    + apply IH. right. exact Hin.
Qed.

(** C4.  When the project holds a multiplier [m] for the season, the revenue
    is base revenue times [m], times the climate bonus exactly when the
    project is indoor and fits the climate-controlled space, times the
    greatest sales multiplier among the connections serving its product type
    when there is one, times the sale probability.  One connection serving
    "plants" at 1.5, base 100, multiplier 1, probability 0.5 and no climate
    bonus give 75. *)
Theorem calculate_market_adjusted_revenue_formula
  (self : FarmOptimizer) (p : Project) (season : Season) (m : Q) :
  dict_get Season_eqb season (seasonal_multipliers p) = Some m ->
  exists v cf mf,
    calculate_market_adjusted_revenue self p season = Ok v
    /\ v == monthly_revenue p * m * cf * mf * base_sales_probability p
    /\ (climate_eligible self p -> cf = climate_controlled_benefit p)
    /\ (~ climate_eligible self p -> cf = 1)
    /\ ((exists c, serves self p c) ->
        (exists c, serves self p c /\ mf = sales_multiplier c)
        /\ (forall c, serves self p c -> sales_multiplier c <= mf))
    /\ ((forall c, ~ serves self p c) -> mf = 1)
    /\ (forall c,
          market_connections (resources self) = Some [c] ->
          product_type p = "plants" -> In "plants" (product_types c) ->
          sales_multiplier c == 15 # 10 ->
          monthly_revenue p == 100 -> m == 1 ->
          base_sales_probability p == 1 # 2 ->
          ~ climate_eligible self p ->
          v == 75).
Proof.
  intro Hm.
  set (cf := if is_indoor p
                && Qle_bool (space_required_sqft p)
                            (climate_controlled_sqft (resources self))
             then climate_controlled_benefit p else 1).
  set (mf := match map sales_multiplier (relevant_connections self p) with
             | [] => 1
             | x :: rest => py_max x rest
             end).
  assert (Hcf1 : climate_eligible self p -> cf = climate_controlled_benefit p).
  { intros [Hi Hs]. unfold cf. rewrite Hi. apply Qle_bool_iff in Hs.
    now rewrite Hs. }
  assert (Hcf0 : ~ climate_eligible self p -> cf = 1).
  { intro Hn. unfold cf.
    destruct (is_indoor p) eqn:Hi; [|reflexivity].
    destruct (Qle_bool _ _) eqn:Hs; [|reflexivity].
    exfalso. apply Hn. split; [exact Hi|now apply Qle_bool_iff]. }
  assert (Hmf1 : (exists c, serves self p c) ->
                 (exists c, serves self p c /\ mf = sales_multiplier c)
                 /\ (forall c, serves self p c -> sales_multiplier c <= mf)).
  { intros [c0 Hc0]. apply relevant_connections_iff in Hc0. unfold mf.
    destruct (relevant_connections self p) as [|c1 cs] eqn:Hrel; [destruct Hc0|].
    cbn [map]. split.
    - pose proof (py_max_In (map sales_multiplier cs) (sales_multiplier c1)) as Hin.
      change (sales_multiplier c1 :: map sales_multiplier cs)
        with (map sales_multiplier (c1 :: cs)) in Hin.
      apply in_map_iff in Hin. destruct Hin as [c [Heq Hin]].
      exists c. split; [|now symmetry].
      apply relevant_connections_iff. now rewrite Hrel.
    - intros c Hc. apply relevant_connections_iff in Hc. rewrite Hrel in Hc.
      apply py_max_upper.
      change (sales_multiplier c1 :: map sales_multiplier cs)
        with (map sales_multiplier (c1 :: cs)).
      now apply in_map. }
  assert (Hmf0 : (forall c, ~ serves self p c) -> mf = 1).
  { intro Hn. unfold mf.
    destruct (relevant_connections self p) as [|c1 cs] eqn:Hrel; [reflexivity|].
    exfalso. apply (Hn c1). apply relevant_connections_iff.
    rewrite Hrel. now left. }
  assert (Hv : exists v,
             calculate_market_adjusted_revenue self p season = Ok v
             /\ v == monthly_revenue p * m * cf * mf * base_sales_probability p).
  { unfold calculate_market_adjusted_revenue, dict_item. rewrite Hm. cbn [bind].
    eexists. split; [reflexivity|]. unfold cf, mf.
    destruct (is_indoor p && Qle_bool _ _);
      destruct (map sales_multiplier (relevant_connections self p)); ring. }
  destruct Hv as [v [Hv Hval]].
  exists v, cf, mf. repeat split; auto.
  - apply Hmf1; assumption.
  - apply Hmf1; assumption.
  - intros c Hmc Hpt Hin Hsm Hbase Hm1 Hprob Hncl.
    assert (Hs : serves self p c).
    { exists [c]. split; [exact Hmc|]. split; [now left|]. now rewrite Hpt. }
    destruct (Hmf1 (ex_intro _ c Hs)) as [[c' [Hs' Hmf]] _].
    destruct Hs' as [conns [Heq [Hin' _]]].
    rewrite Hmc in Heq. injection Heq as <-. destruct Hin' as [<-|[]].
    rewrite Hval, Hmf, (Hcf0 Hncl), Hsm, Hbase, Hm1, Hprob. reflexivity.
Qed.

Lemma calculate_market_adjusted_revenue_formula_witness :
  exists v,
    calculate_market_adjusted_revenue
      (Scenario.optimizer (Scenario.res 20 500 (Some [Scenario.nursery])) [])
      (Scenario.plants) SPRING = Ok v
    /\ v == 75.
Proof.
  destruct (calculate_market_adjusted_revenue_formula
              (Scenario.optimizer
                 (Scenario.res 20 500 (Some [Scenario.nursery])) [])
              (Scenario.plants) SPRING 1 eq_refl)
    as [v [cf [mf [Hv [_ [_ [_ [_ [_ H75]]]]]]]]].
  exists v. split; [exact Hv|].
  apply (H75 Scenario.nursery); try reflexivity.
  - simpl. left. reflexivity.
  - intros [Hin _]. discriminate Hin.
Defined.

(** ** Project score *)

Lemma calculate_project_score_unguarded (self : FarmOptimizer) (p : Project)
  (selected : list Project) :
  setup_cost p == 0 ->
  calculate_project_score self p selected = Raise ZeroDivisionError.
Proof.
  intro H0. unfold calculate_project_score, calculate_water_costs.
  unfold py_div at 1.
  destruct (Qeq_bool (truck_mpg (resources self)) 0); [reflexivity|].
  cbn [bind]. now rewrite py_div_zero.
Qed.

(** C6.  A project whose setup cost is 0 is scored with no guard on the ROI
    division: the score is not a number, the division raises. *)
Theorem calculate_project_score_zero_setup_cost :
  calculate_project_score
    Scenario.bare
    (Scenario.project 0 0 1) [] = Raise ZeroDivisionError.
Proof. apply calculate_project_score_unguarded. reflexivity. Qed.

(** ** Loops that can raise *)

Lemma for_each_ext {A S : Type} (f g : S -> A -> result S) (l : list A) :
  (forall s x, In x l -> f s x = g s x) ->
  forall s, for_each f l s = for_each g l s.
Proof.
  induction l as [|x l IH]; intros Hfg s; [reflexivity|].
  cbn [for_each]. rewrite (Hfg s x (or_introl eq_refl)).
  destruct (g s x) as [s'|e]; [|reflexivity].
  cbn [bind]. apply IH. intros s0 y Hy. apply Hfg. now right.
Qed.

Lemma for_each_invariant {A S : Type} (P : S -> Prop) (body : S -> A -> result S)
  (l : list A) :
  (forall s x s', In x l -> P s -> body s x = Ok s' -> P s') ->
  forall s s', P s -> for_each body l s = Ok s' -> P s'.
Proof.
  induction l as [|x l IH]; intros Hstep s s' Hs Hrun.
  - cbn in Hrun. injection Hrun as <-. exact Hs.
  - cbn [for_each] in Hrun.
    destruct (body s x) as [s1|e] eqn:E; [|discriminate].
    cbn [bind] in Hrun.
    apply (IH (fun s0 y s0' Hy => Hstep s0 y s0' (or_intror Hy)) s1 s').
    + apply (Hstep s x s1); [now left|exact Hs|exact E].
    + exact Hrun.
Qed.

Lemma for_each_app {A S : Type} (body : S -> A -> result S) (l1 l2 : list A)
  (s : S) :
  for_each body (l1 ++ l2) s = (s' <- for_each body l1 s ;; for_each body l2 s').
Proof.
  revert s. induction l1 as [|x l1 IH]; intro s; [reflexivity|].
  cbn [for_each app]. destruct (body s x) as [s1|e]; [|reflexivity].
  cbn [bind]. apply IH.
Qed.

(** ** Infrastructure ROI *)

(** The season that the estimator builds from the list of values is the one
    of [Season.from_month]. *)
Lemma roi_season_from_month (m : nat) : roi_season m = Ok (from_month m).
Proof.
  unfold roi_season, from_month.
  pose proof (Nat.mod_upper_bound m 4) as Hlt.
  destruct (m mod 4)%nat as [|[|[|[|k]]]]; try reflexivity. lia.
Qed.

Lemma roi_projects_indoor_only (self : FarmOptimizer) (u : InfrastructureUpgrade)
  (season : Season) (ps : list Project) :
  forall acc,
    for_each (roi_project_benefit self u season) (filter is_indoor ps) acc
    = for_each (roi_project_benefit self u season) ps acc.
Proof.
  induction ps as [|p ps IH]; intro acc; [reflexivity|].
  cbn [filter for_each]. destruct (is_indoor p) eqn:Hi.
  - cbn [for_each].
    destruct (roi_project_benefit self u season acc p); [|reflexivity].
    cbn [bind]. apply IH.
  - unfold roi_project_benefit at 2. rewrite Hi. cbn [bind]. apply IH.
Qed.

Lemma roi_total_benefit_indoor_only (self : FarmOptimizer)
  (u : InfrastructureUpgrade) (ps : list Project) (h : Z) :
  roi_total_benefit self u (filter is_indoor ps) h = roi_total_benefit self u ps h.
Proof.
  unfold roi_total_benefit. apply for_each_ext. intros s m _.
  unfold roi_month_benefit. destruct (roi_season m); [|reflexivity].
  cbn [bind]. apply roi_projects_indoor_only.
Qed.

Lemma roi_total_benefit_needs_climate (self : FarmOptimizer)
  (u : InfrastructureUpgrade) (ps : list Project) (h : Z) (B : Q) :
  dict_mem String.eqb "climate_controlled_sqft" (resource_impacts u) = false ->
  roi_total_benefit self u ps h = Ok B -> B = 0.
Proof.
  intros Hkey Hrun. unfold roi_total_benefit in Hrun.
  apply (for_each_invariant (fun b => b = 0) _ _) with (s := 0) (s' := B) in Hrun;
    [exact Hrun| |reflexivity].
  intros s m s' _ Hs Hm. unfold roi_month_benefit in Hm.
  destruct (roi_season m) as [season|]; [|discriminate]. cbn [bind] in Hm.
  apply (for_each_invariant (fun b => b = 0) _ _) with (s := s) (s' := s') in Hm;
    [exact Hm| |exact Hs].
  intros b p b' _ Hb Hp. unfold roi_project_benefit in Hp. rewrite Hkey in Hp.
  destruct (is_indoor p).
  - destruct (calculate_market_adjusted_revenue self p season); [|discriminate].
    cbn [bind] in Hp. injection Hp as <-. exact Hb.
  - injection Hp as <-. exact Hb.
Qed.

(** C7, as amended.  Once the benefit loop has produced a total benefit [B]:
    a total cost (purchase cost plus operating cost times horizon) that is
    zero or negative gives exactly 0 whatever [B] is; a positive total cost
    gives ([B] minus total cost) over total cost; [B] is the same when only
    the indoor projects are kept, and is 0 when the impact map has no entry
    for the climate-controlled space. *)
Theorem calculate_infrastructure_roi_cases (self : FarmOptimizer)
  (u : InfrastructureUpgrade) (ps : list Project) (h : Z) (B : Q) :
  roi_total_benefit self u ps h = Ok B ->
  (cost u + monthly_operating_cost u * inject_Z h <= 0 ->
   calculate_infrastructure_roi self u ps h = Ok 0)
  /\ (0 < cost u + monthly_operating_cost u * inject_Z h ->
      calculate_infrastructure_roi self u ps h
      = Ok ((B - (cost u + monthly_operating_cost u * inject_Z h))
            / (cost u + monthly_operating_cost u * inject_Z h)))
  /\ roi_total_benefit self u (filter is_indoor ps) h = Ok B
  /\ (dict_mem String.eqb "climate_controlled_sqft" (resource_impacts u) = false ->
      B = 0).
Proof.
  intro HB. repeat split.
  - intro Hle. unfold calculate_infrastructure_roi. rewrite HB. cbn [bind].
    apply Qlt_bool_false_iff in Hle. unfold roi_total_cost. now rewrite Hle.
  - intro Hlt. unfold calculate_infrastructure_roi. rewrite HB. cbn [bind].
    apply Qlt_bool_iff in Hlt. unfold roi_total_cost. now rewrite Hlt.
  - now rewrite roi_total_benefit_indoor_only.
  - intro Hkey. exact (roi_total_benefit_needs_climate self u ps h B Hkey HB).
Qed.

Lemma calculate_infrastructure_roi_cases_witness :
  calculate_infrastructure_roi
    Scenario.bare Scenario.greenhouse
    [Scenario.indoor_project] 2
  = Ok ((Scenario.greenhouse_benefit - (5000 + 100 * inject_Z 2))
        / (5000 + 100 * inject_Z 2)).
Proof.
  assert (HB : roi_total_benefit
                 Scenario.bare
                 Scenario.greenhouse [Scenario.indoor_project] 2
               = Ok Scenario.greenhouse_benefit) by (vm_compute; reflexivity).
  apply (calculate_infrastructure_roi_cases _ _ _ _ _ HB).
  reflexivity.
Defined.

(** C7 as stated fails on an upgrade whose total cost is negative: the total
    cost is not 0, yet the estimator returns 0, not benefit minus cost over
    cost (which is -1 here). *)
Lemma calculate_infrastructure_roi_negative_cost :
  ~ cost Scenario.grant + monthly_operating_cost Scenario.grant * inject_Z 1 == 0
  /\ roi_total_benefit Scenario.bare Scenario.grant [] 1 = Ok 0
  /\ calculate_infrastructure_roi Scenario.bare Scenario.grant [] 1 = Ok 0
  /\ ~ 0 == (0 - (cost Scenario.grant
                  + monthly_operating_cost Scenario.grant * inject_Z 1))
            / (cost Scenario.grant
               + monthly_operating_cost Scenario.grant * inject_Z 1).
Proof.
  repeat split; try reflexivity; intro H; vm_compute in H; discriminate.
Qed.

(** ** Power feasibility *)

Lemma fold_left_Qplus (xs : list Q) :
  forall a, fold_left Qplus xs a == a + fold_right Qplus 0 xs.
Proof.
  induction xs as [|x xs IH]; intro a; cbn [fold_left fold_right].
  - ring.
  - rewrite IH. ring.
Qed.

Lemma py_sum_snoc (xs : list Q) (x : Q) : py_sum (xs ++ [x]) = py_sum xs + x.
Proof. unfold py_sum. now rewrite fold_left_app. Qed.

Lemma PowerTimeOfUse_eqb_daytime (t : PowerTimeOfUse) :
  PowerTimeOfUse_eqb t DAYTIME_ONLY = daytime_only t.
Proof. now destruct t. Qed.

Lemma PowerTimeOfUse_in_battery (t : PowerTimeOfUse) :
  existsb (PowerTimeOfUse_eqb t) [NIGHT_ONLY; ANY_TIME] = night_or_any_time t.
Proof. now destruct t. Qed.

Lemma sum_filter_draw (uses : PowerTimeOfUse -> bool) (ps : list Project) :
  py_sum (map (fun p => kwh_daily (power_usage p))
              (filter (fun p => uses (time_of_use (power_usage p))) ps))
  == draw_total uses ps.
Proof.
  unfold py_sum. rewrite fold_left_Qplus, Qplus_0_l.
  induction ps as [|p ps IH]; cbn [filter map fold_right draw_total].
  - reflexivity.
  - destruct (uses (time_of_use (power_usage p))); cbn [map fold_right].
    + now rewrite IH.
    + rewrite IH. ring.
Qed.

Lemma daytime_power_total (ps : list Project) :
  daytime_power ps == draw_total daytime_only ps.
Proof.
  unfold daytime_power. rewrite <- sum_filter_draw.
  rewrite (filter_ext _ (fun p => daytime_only (time_of_use (power_usage p))));
    [reflexivity|].
  intro p. apply PowerTimeOfUse_eqb_daytime.
Qed.

Lemma battery_power_total (ps : list Project) :
  battery_power ps == draw_total night_or_any_time ps.
Proof.
  unfold battery_power. rewrite <- sum_filter_draw.
  rewrite (filter_ext _ (fun p => night_or_any_time (time_of_use (power_usage p))));
    [reflexivity|].
  intro p. apply PowerTimeOfUse_in_battery.
Qed.

Lemma draw_total_snoc (uses : PowerTimeOfUse -> bool) (ps : list Project)
  (p : Project) :
  draw_total uses (ps ++ [p])
  == draw_total uses ps
     + (if uses (time_of_use (power_usage p)) then kwh_daily (power_usage p) else 0).
Proof.
  induction ps as [|q ps IH]; cbn [app draw_total].
  - ring.
  - rewrite IH. ring.
Qed.

Lemma draw_total_snoc_le (uses : PowerTimeOfUse -> bool) (ps : list Project)
  (p : Project) :
  0 <= kwh_daily (power_usage p) ->
  draw_total uses ps <= draw_total uses (ps ++ [p]).
Proof.
  intro Hp. rewrite draw_total_snoc.
  destruct (uses (time_of_use (power_usage p))); lra.
Qed.

Lemma check_power_feasibility_iff (self : FarmOptimizer) (ps : list Project) :
  check_power_feasibility self ps = true
  <-> draw_total daytime_only ps <= daytime_power_available_kwh (resources self)
      /\ draw_total night_or_any_time ps
         <= (8 # 10) * battery_capacity_kwh (resources self).
Proof.
  unfold check_power_feasibility.
  rewrite andb_true_iff, !Qle_bool_iff, daytime_power_total, battery_power_total.
  rewrite (Qmult_comm (battery_capacity_kwh (resources self))). reflexivity.
Qed.

(** C9, as amended.  The check succeeds exactly when the draw of the
    daytime-only projects is at most the daytime power available and the draw
    of the night and any-time projects is at most 80% of the battery
    capacity.  Appending a project whose draw is not negative cannot lower
    either total, so a list that is feasible with it is feasible without. *)
Theorem check_power_feasibility_monotone (self : FarmOptimizer)
  (ps : list Project) (p : Project) :
  0 <= kwh_daily (power_usage p) ->
  (check_power_feasibility self ps = true
   <-> draw_total daytime_only ps <= daytime_power_available_kwh (resources self)
       /\ draw_total night_or_any_time ps
          <= (8 # 10) * battery_capacity_kwh (resources self))
  /\ daytime_power ps <= daytime_power (ps ++ [p])
  /\ battery_power ps <= battery_power (ps ++ [p])
  /\ (check_power_feasibility self (ps ++ [p]) = true ->
      check_power_feasibility self ps = true).
Proof.
  intro Hp.
  pose proof (draw_total_snoc_le daytime_only ps p Hp) as Hd.
  pose proof (draw_total_snoc_le night_or_any_time ps p Hp) as Hb.
  split; [apply check_power_feasibility_iff|].
  split; [now rewrite !daytime_power_total|].
  split; [now rewrite !battery_power_total|].
  rewrite !check_power_feasibility_iff. intros [H1 H2]. split; lra.
Qed.

Lemma check_power_feasibility_monotone_witness :
  check_power_feasibility
    Scenario.bare
    [Scenario.project 200 0 30] = true.
Proof.
  apply (check_power_feasibility_monotone
           Scenario.bare
           [Scenario.project 200 0 30] (Scenario.project 200 0 5)).
  - discriminate.
  - reflexivity.
Defined.

(** C9 as stated fails on a project with a negative draw: appended to a list
    that draws 40 of the 35 available by day, it lowers the daytime total to
    30 and makes the list feasible. *)
Lemma check_power_feasibility_negative_draw :
  check_power_feasibility Scenario.bare
    ([Scenario.heavy_project] ++ [Scenario.feed_in_project]) = true
  /\ check_power_feasibility Scenario.bare [Scenario.heavy_project] = false
  /\ daytime_power ([Scenario.heavy_project] ++ [Scenario.feed_in_project])
     < daytime_power [Scenario.heavy_project].
Proof. repeat split. Qed.

(** ** The loop: reachable states *)

Lemma state_after_S (self : FarmOptimizer) (pm : Z) (k : nat) :
  state_after self pm (S k)
  = (s <- state_after self pm k ;; period pm s k).
Proof.
  unfold state_after. rewrite seq_S, for_each_app. cbn [Nat.add].
  destruct (for_each (period pm) (seq 0 k) (initial_state self)) as [s|e];
    [|reflexivity].
  cbn [bind for_each]. now destruct (period pm s k).
Qed.

Lemma state_after_prefix (self : FarmOptimizer) (pm : Z) (n : nat) (sn : LoopState) :
  state_after self pm n = Ok sn ->
  forall k, (k <= n)%nat -> exists sk, state_after self pm k = Ok sk.
Proof.
  revert sn. induction n as [|n IH]; intros sn Hn k Hk.
  - assert (k = 0%nat) by lia. subst. now exists sn.
  - destruct (Nat.eq_dec k (S n)) as [->|Hne]; [now exists sn|].
    rewrite state_after_S in Hn.
    destruct (state_after self pm n) as [s|e] eqn:E; [|discriminate].
    apply (IH s eq_refl). lia.
Qed.

(** Every state the loop reaches satisfies a property that the initial state
    has and that an iteration keeps. *)
Lemma state_after_invariant (P : LoopState -> Prop) (self : FarmOptimizer)
  (pm : Z) :
  P (initial_state self) ->
  (forall s m s', P s -> period pm s m = Ok s' -> P s') ->
  forall k sk, state_after self pm k = Ok sk -> P sk.
Proof.
  intros H0 Hstep k sk Hk. unfold state_after in Hk.
  apply (for_each_invariant P (period pm) (seq 0 k)) with (s := initial_state self);
    [|exact H0|exact Hk].
  intros s m s' _. apply Hstep.
Qed.

Lemma period_inv (pm : Z) (s : LoopState) (m : nat) (s' : LoopState) :
  period pm s m = Ok s' ->
  exists t planned reinvestment r acts,
    month_terms s m = Ok t
    /\ implement_upgrade (mt_self t) (mt_current t) (planned_upgrades s)
         (mt_revenue t - mt_costs t - mt_water_costs t + mt_budget t)
         (mt_actions t) (pm - Z.of_nat m)
       = Ok (planned, reinvestment, r, acts)
    /\ current_projects s' = mt_current t
    /\ planned_upgrades s' = planned
    /\ self_ s' = set_resources r (mt_self t)
    /\ monthly_profits (financial_projection s')
       = (monthly_profits (financial_projection s)
          ++ [mt_revenue t - mt_costs t - mt_water_costs t])%list.
Proof.
  unfold period. intro H.
  destruct (month_terms s m) as [t|e]; [|discriminate]. cbn [bind] in H.
  destruct (implement_upgrade _ _ _ _ _ _) as [[[[planned re] r] acts]|e] eqn:Hu;
    [|discriminate].
  cbn [bind] in H. injection H as <-.
  exists t, planned, re, r, acts. cbn. auto 10.
Qed.

Lemma close_month_erase (s : LoopState) (t : MonthTerms) (m : nat)
  (d1 d2 : list InfrastructureUpgrade * Q * Resources * list string) :
  erase_decision d1 = erase_decision d2 ->
  erase_state (close_month (erase_state s) (erase_terms t) m d1)
  = erase_state (close_month s t m d2).
Proof.
  destruct d1 as [[[pl1 a1] r1] acts1], d2 as [[[pl2 a2] r2] acts2].
  cbn [erase_decision]. intro H.
  assert (Hpl : pl1 = pl2) by exact (f_equal (fun d => fst (fst (fst d))) H).
  assert (Ha : a1 = a2) by exact (f_equal (fun d => snd (fst (fst d))) H).
  assert (Hr : erase_power r1 = erase_power r2)
    by exact (f_equal (fun d => snd (fst d)) H).
  assert (Hacts : acts1 = acts2) by exact (f_equal snd H).
  subst pl2 a2 acts2. clear H.
  assert (Hrate : reinvestment_rate r1 = reinvestment_rate r2)
    by exact (f_equal reinvestment_rate Hr).
  unfold close_month, erase_state, erase_self, set_resources.
  cbn [self_ current_projects planned_upgrades available_budget accumulated
       financial_projection resources projects infrastructure_upgrades
       erase_terms mt_self mt_current mt_budget mt_actions mt_revenue mt_costs
       mt_water_costs].
  now rewrite Hr, Hrate.
Qed.

Lemma month_terms_inv (s : LoopState) (m : nat) (t : MonthTerms) :
  month_terms s m = Ok t ->
  exists catalogue,
    update_actives (current_projects s) = Ok (mt_current t)
    /\ fund_projects (projects (self_ s)) (mt_current t) (available_budget s)
       = Ok (catalogue, mt_budget t, mt_actions t)
    /\ mt_self t = set_projects catalogue (self_ s)
    /\ month_revenue (mt_self t) (from_month m) (mt_current t) = Ok (mt_revenue t)
    /\ mt_costs t = month_costs (mt_current t)
    /\ month_water_costs (mt_self t) (mt_current t) = Ok (mt_water_costs t).
Proof.
  unfold month_terms. intro H.
  destruct (update_actives (current_projects s)) as [cur|e] eqn:Hupd;
    [|discriminate].
  cbn [bind] in H.
  destruct (fund_projects _ _ _) as [[[cat b] acts]|e] eqn:Hf; [|discriminate].
  cbn [bind] in H.
  destruct (month_revenue _ _ _) as [rev|e] eqn:Hrev; [|discriminate].
  cbn [bind] in H.
  destruct (month_water_costs _ _) as [w|e] eqn:Hw; [|discriminate].
  cbn [bind] in H. injection H as <-. cbn.
  exists cat. repeat split; assumption.
Qed.

(** No statement of the loop adds a project to [current_projects]. *)
Lemma period_keeps_no_active (pm : Z) (s : LoopState) (m : nat) (s' : LoopState) :
  current_projects s = [] -> period pm s m = Ok s' -> current_projects s' = [].
Proof.
  intros Hs Hp. apply period_inv in Hp.
  destruct Hp as [t [pl [re [r [acts [Ht [_ [Hcur _]]]]]]]].
  apply month_terms_inv in Ht. destruct Ht as [cat [Hupd _]].
  rewrite Hs in Hupd. cbn in Hupd. injection Hupd as Hupd. congruence.
Qed.

Lemma reached_no_active (self : FarmOptimizer) (pm : Z) (k : nat) (sk : LoopState) :
  state_after self pm k = Ok sk -> current_projects sk = [].
Proof.
  apply (state_after_invariant (fun s => current_projects s = [])).
  - reflexivity.
  - intros s m s'. apply period_keeps_no_active.
Qed.

Lemma month_terms_no_active (s : LoopState) (m : nat) (t : MonthTerms) :
  current_projects s = [] -> month_terms s m = Ok t ->
  mt_current t = [] /\ mt_revenue t = 0 /\ mt_costs t = 0 /\ mt_water_costs t = 0.
Proof.
  intros Hs Ht. apply month_terms_inv in Ht.
  destruct Ht as [cat [Hupd [_ [_ [Hrev [Hc Hw]]]]]].
  rewrite Hs in Hupd. cbn in Hupd. injection Hupd as Hupd.
  rewrite <- Hupd in *. cbn in Hrev, Hw, Hc.
  injection Hrev as Hrev. injection Hw as Hw. auto.
Qed.

(** ** The loop: the upgrade of the month *)

Lemma option_eqb_refl {V : Type} (veqb : V -> V -> bool) (o : option V) :
  (forall v, veqb v v = true) -> option_eqb veqb o o = true.
Proof. intro H. destruct o; [apply H|reflexivity]. Qed.

Lemma dict_eqb_refl {K V : Type} (keqb : K -> K -> bool) (veqb : V -> V -> bool)
  (d : dict K V) :
  (forall v, veqb v v = true) -> dict_eqb keqb veqb d d = true.
Proof.
  intro H. unfold dict_eqb. apply forallb_forall. intros k _.
  now apply option_eqb_refl.
Qed.

Lemma InfrastructureUpgrade_eqb_refl (u : InfrastructureUpgrade) :
  InfrastructureUpgrade_eqb u u = true.
Proof.
  unfold InfrastructureUpgrade_eqb.
  now rewrite String.eqb_refl, !Qeq_bool_refl,
    !(dict_eqb_refl _ _ _ Qeq_bool_refl).
Qed.

Lemma py_in_false_not_In (u : InfrastructureUpgrade)
  (us : list InfrastructureUpgrade) :
  py_in InfrastructureUpgrade_eqb u us = false -> ~ In u us.
Proof.
  unfold py_in. intros H Hin.
  assert (Ht : existsb (InfrastructureUpgrade_eqb u) us = true).
  { apply existsb_exists. exists u. split; [exact Hin|].
    apply InfrastructureUpgrade_eqb_refl. }
  congruence.
Qed.

Lemma affordable_upgrades_In (self : FarmOptimizer)
  (planned : list InfrastructureUpgrade) (amount : Q) (u : InfrastructureUpgrade) :
  In u (affordable_upgrades self planned amount) ->
  In u (dict_values (infrastructure_upgrades self))
  /\ ~ In u planned
  /\ cost u <= amount.
Proof.
  unfold affordable_upgrades. rewrite filter_In, andb_true_iff, negb_true_iff.
  intros [Hin [Hnp Hc]]. split; [exact Hin|]. split.
  - now apply py_in_false_not_In.
  - now apply Qle_bool_iff.
Qed.

Lemma keyed_upgrades_fst (self : FarmOptimizer) (current : list Project)
  (horizon : Z) (us : list InfrastructureUpgrade) :
  forall done keyed,
    for_each (fun done u =>
                k <- calculate_infrastructure_roi self u current horizon ;;
                Ok (done ++ [(u, k)])%list) us done = Ok keyed ->
    map fst keyed = (map fst done ++ us)%list.
Proof.
  induction us as [|u us IH]; intros done keyed H.
  - cbn in H. injection H as <-. now rewrite app_nil_r.
  - cbn [for_each] in H.
    destruct (calculate_infrastructure_roi self u current horizon) as [k|e];
      [|discriminate].
    cbn [bind] in H. apply IH in H.
    rewrite H, map_app, <- app_assoc. reflexivity.
Qed.

Lemma py_max_by_In {A : Type} (rest : list (A * Q)) :
  forall x, In (py_max_by x rest) (map fst (x :: rest)).
Proof.
  unfold py_max_by. induction rest as [|y rest IH]; intro x.
  - left. reflexivity.
  - cbn [fold_left].
    destruct (IH (if Qlt_bool (snd x) (snd y) then y else x)) as [H|H].
    + destruct (Qlt_bool (snd x) (snd y)).
      * right. left. exact H.
      * left. exact H.
    + right. right. exact H.
Qed.

Lemma best_upgrade_In (self : FarmOptimizer) (current : list Project)
  (horizon : Z) (us : list InfrastructureUpgrade) (u : InfrastructureUpgrade) :
  best_upgrade self current horizon us = Ok (Some u) -> In u us.
Proof.
  unfold best_upgrade, keyed_upgrades. intro H.
  destruct (for_each _ us []) as [keyed|e] eqn:Hk; [|discriminate].
  cbn [bind] in H. apply keyed_upgrades_fst in Hk. cbn in Hk.
  destruct keyed as [|x rest]; [discriminate|].
  injection H as <-. rewrite <- Hk. apply py_max_by_In.
Qed.

Lemma best_upgrade_none (self : FarmOptimizer) (current : list Project)
  (horizon : Z) (us : list InfrastructureUpgrade) :
  best_upgrade self current horizon us = Ok None -> us = [].
Proof.
  unfold best_upgrade, keyed_upgrades. intro H.
  destruct (for_each _ us []) as [keyed|e] eqn:Hk; [|discriminate].
  cbn [bind] in H. apply keyed_upgrades_fst in Hk. cbn in Hk.
  destruct keyed as [|x rest]; [now subst|discriminate].
Qed.

(** The decision of a month adds nothing to the planned upgrades, or adds at
    their end one catalogue upgrade that was not planned and is affordable. *)
Lemma implement_upgrade_planned (self : FarmOptimizer) (current : list Project)
  (planned : list InfrastructureUpgrade) (amount : Q) (acts : list string)
  (horizon : Z) (planned' : list InfrastructureUpgrade) (amount' : Q)
  (r : Resources) (acts' : list string) :
  implement_upgrade self current planned amount acts horizon
  = Ok (planned', amount', r, acts') ->
  planned' = planned
  \/ exists u,
       planned' = (planned ++ [u])%list
       /\ ~ In u planned
       /\ In u (dict_values (infrastructure_upgrades self))
       /\ cost u <= amount.
Proof.
  unfold implement_upgrade. intro H.
  destruct (best_upgrade _ _ _ _) as [[u|]|e] eqn:Hb; [| |discriminate].
  - cbn [bind] in H.
    destruct (apply_upgrade u (resources self)) as [r1|e]; [|discriminate].
    cbn [bind] in H. injection H as <- _ _ _.
    right. exists u. split; [reflexivity|].
    apply best_upgrade_In in Hb. apply affordable_upgrades_In in Hb. tauto.
  - cbn [bind] in H. injection H as <- _ _ _. now left.
Qed.

Lemma period_planned (pm : Z) (s : LoopState) (m : nat) (s' : LoopState) :
  period pm s m = Ok s' ->
  planned_upgrades s' = planned_upgrades s
  \/ exists u,
       planned_upgrades s' = (planned_upgrades s ++ [u])%list
       /\ ~ In u (planned_upgrades s).
Proof.
  intro H. apply period_inv in H.
  destruct H as [t [pl [re [r [acts [_ [Hu [_ [Hpl _]]]]]]]]].
  apply implement_upgrade_planned in Hu. rewrite Hpl.
  destruct Hu as [Hu|[u [Hu [Hn _]]]]; [now left|].
  right. now exists u.
Qed.

Lemma planned_persists (self : FarmOptimizer) (pm : Z) (k : nat) (sk : LoopState) :
  state_after self pm k = Ok sk ->
  forall d s',
    state_after self pm (k + d) = Ok s' ->
    exists rest,
      planned_upgrades s' = (planned_upgrades sk ++ rest)%list
      /\ (List.length rest <= d)%nat.
Proof.
  intros Hk d. induction d as [|d IH]; intros s' Hs'.
  - rewrite Nat.add_0_r, Hk in Hs'. injection Hs' as <-.
    exists []. split; [now rewrite app_nil_r|reflexivity].
  - rewrite Nat.add_succ_r, state_after_S in Hs'.
    destruct (state_after self pm (k + d)) as [s|e]; [|discriminate].
    cbn [bind] in Hs'. destruct (IH s eq_refl) as [rest [Hrest Hlen]].
    apply period_planned in Hs'. destruct Hs' as [Hs'|[u [Hs' _]]].
    + exists rest. split; [congruence|lia].
    + exists (rest ++ [u])%list. split.
      * rewrite Hs', Hrest, app_assoc. reflexivity.
      * rewrite length_app. cbn. lia.
Qed.

(** ** Water cost after the well *)

Lemma well_upgrade_in_catalogue :
  dict_get String.eqb "well" _initialize_upgrades = Some well_upgrade.
Proof. reflexivity. Qed.

(** The impact of the well names no field of the resources: applying it
    leaves them as they are. *)
Lemma apply_well_upgrade (r : Resources) : apply_upgrade well_upgrade r = Ok r.
Proof. reflexivity. Qed.

(** In a run the water-cost term of every month that is computed is 0,
    whether the well has been applied or not: no project is active. *)
Lemma run_water_cost_term_zero (self : FarmOptimizer) (pm : Z) (j : nat)
  (s' : LoopState) :
  state_after self pm (S j) = Ok s' ->
  exists sj t,
    state_after self pm j = Ok sj
    /\ month_terms sj j = Ok t
    /\ mt_water_costs t = 0.
Proof.
  intro Hs'. rewrite state_after_S in Hs'.
  destruct (state_after self pm j) as [sj|e] eqn:Hsj; [|discriminate].
  cbn [bind] in Hs'. apply period_inv in Hs'.
  destruct Hs' as [t [pl [re [r [acts [Ht _]]]]]].
  exists sj, t. split; [reflexivity|]. split; [exact Ht|].
  apply (month_terms_no_active sj j t); [|exact Ht].
  exact (reached_no_active self pm j sj Hsj).
Qed.


(** ** Applied upgrades *)

Lemma reached_planned_bound (self : FarmOptimizer) (pm : Z) :
  forall k sk,
    state_after self pm k = Ok sk ->
    (List.length (planned_upgrades sk) <= k)%nat /\ NoDup (planned_upgrades sk).
Proof.
  induction k as [|k IH]; intros sk Hk.
  - cbn in Hk. injection Hk as <-. cbn. split; [lia|constructor].
  - rewrite state_after_S in Hk.
    destruct (state_after self pm k) as [s|e]; [|discriminate].
    cbn [bind] in Hk. destruct (IH s eq_refl) as [Hlen Hnd].
    apply period_planned in Hk. destruct Hk as [->|[u [-> Hn]]].
    + split; [lia|exact Hnd].
    + split.
      * rewrite length_app. cbn. lia.
      * apply NoDup_app; [exact Hnd|repeat constructor; intros []|].
        intros x Hx [<-|[]]. contradiction.
Qed.

(** C8.  Between the start of month [j] and the start of a later month [k]
    of a run, the applied upgrades only grow at their end, by at most one
    upgrade a month; they are never more than the projected months and hold
    no upgrade twice; and the list that the run returns extends them, with
    the same bound and no upgrade twice. *)
Theorem upgrades_applied_once (self : FarmOptimizer) (pm : Z) (j k : nat)
  (sj sk : LoopState) :
  (j <= k <= Z.to_nat pm)%nat ->
  state_after self pm j = Ok sj ->
  state_after self pm k = Ok sk ->
  (exists added,
     planned_upgrades sk = (planned_upgrades sj ++ added)%list
     /\ (List.length added <= k - j)%nat)
  /\ (List.length (planned_upgrades sk) <= Z.to_nat pm)%nat
  /\ NoDup (planned_upgrades sk)
  /\ forall cur ups fp,
       optimize_with_infrastructure self pm = Ok (cur, ups, fp) ->
       (exists added, ups = (planned_upgrades sk ++ added)%list)
       /\ (List.length ups <= Z.to_nat pm)%nat
       /\ NoDup ups.
Proof.
  intros Hjk Hj Hk.
  destruct (reached_planned_bound self pm k sk Hk) as [Hlen Hnd].
  split.
  { apply (planned_persists self pm j sj Hj (k - j)%nat).
    now replace (j + (k - j))%nat with k by lia. }
  split; [lia|]. split; [exact Hnd|].
  intros cur ups fp H. unfold optimize_with_infrastructure in H.
  destruct (state_after self pm (Z.to_nat pm)) as [sn|e] eqn:Hn; [|discriminate].
  cbn [bind] in H. injection H as _ <- _.
  destruct (reached_planned_bound self pm _ sn Hn) as [Hlenn Hndn].
  split; [|split; assumption].
  destruct (planned_persists self pm k sk Hk (Z.to_nat pm - k)%nat sn)
    as [added [Hadded _]].
  - now replace (k + (Z.to_nat pm - k))%nat with (Z.to_nat pm) by lia.
  - now exists added.
Qed.

Lemma upgrades_applied_once_witness :
  exists sj sk added,
    state_after (Scenario.optimizer (Scenario.res 20 3000 None)
                   [("plants", Scenario.funded_project)]) 3 1 = Ok sj
    /\ state_after (Scenario.optimizer (Scenario.res 20 3000 None)
                      [("plants", Scenario.funded_project)]) 3 2 = Ok sk
    /\ planned_upgrades sk = (planned_upgrades sj ++ added)%list
    /\ (List.length added <= 2 - 1)%nat
    /\ NoDup (planned_upgrades sk).
Proof.
  destruct (state_after (Scenario.optimizer (Scenario.res 20 3000 None)
                           [("plants", Scenario.funded_project)]) 3 1)
    as [sj|e] eqn:Ej; [|vm_compute in Ej; discriminate Ej].
  destruct (state_after (Scenario.optimizer (Scenario.res 20 3000 None)
                           [("plants", Scenario.funded_project)]) 3 2)
    as [sk|e] eqn:Ek; [|vm_compute in Ek; discriminate Ek].
  assert (Hjk : (1 <= 2 <= Z.to_nat 3)%nat) by (cbn; lia).
  destruct (upgrades_applied_once _ 3 1%nat 2%nat sj sk Hjk Ej Ek)
    as [[added [Hadd Hlen]] [_ [Hnd _]]].
  exists sj, sk, added. repeat split; assumption.
Defined.

(** ** Funding pass and active projects *)

(** The funding pass reads [funded_so_far] on the first catalogue project
    that is in stage "setup" and not active: on a catalogue of objects built
    by the dataclass constructor, which all lack the attribute, it raises as
    soon as one project is in "setup". *)
Lemma fund_projects_unset_counter (catalogue : dict string Project) :
  (forall key p, In (key, p) catalogue -> funded_so_far p = None) ->
  (exists key p, In (key, p) catalogue /\ current_stage p = "setup") ->
  forall acc, for_each (fund_project []) catalogue acc = Raise AttributeError.
Proof.
  induction catalogue as [|[key p] catalogue IH]; intros Hnone [k0 [p0 [Hin Hst]]] acc.
  - destruct Hin.
  - cbn [for_each]. destruct acc as [[visited budget] acts].
    unfold fund_project at 1. cbn [py_in existsb negb andb].
    destruct (String.eqb (current_stage p) "setup") eqn:E.
    + rewrite (Hnone key p (or_introl eq_refl)). reflexivity.
    + cbn [bind]. apply IH.
      * intros key' p' Hin'. apply (Hnone key' p'). now right.
      * destruct Hin as [Heq|Hin].
        -- injection Heq as -> ->. rewrite Hst in E. discriminate.
        -- now exists k0, p0.
Qed.

Lemma optimize_unset_counter (self : FarmOptimizer) (pm : Z) :
  (0 < pm)%Z ->
  (forall key p, In (key, p) (projects self) -> funded_so_far p = None) ->
  (exists key p, In (key, p) (projects self) /\ current_stage p = "setup") ->
  optimize_with_infrastructure self pm = Raise AttributeError.
Proof.
  intros Hpm Hnone Hsetup. unfold optimize_with_infrastructure, state_after.
  destruct (Z.to_nat pm) as [|n] eqn:En; [lia|].
  cbn [seq for_each]. unfold period at 1, month_terms.
  cbn [initial_state current_projects self_ available_budget].
  cbn [update_actives for_each bind]. unfold fund_projects.
  now rewrite (fund_projects_unset_counter _ Hnone Hsetup).
Qed.

(** What the funding pass does for a project on which the caller has set
    the counter to 0: when the budget covers the setup cost, the project is
    funded in full, moved to "growth" and reported; when it does not, the
    project and the budget are left as they are. *)
Lemma fund_project_counter_set (current : list Project)
  (visited : dict string Project) (budget : Q) (acts : list string)
  (key : string) (p : Project) :
  py_in Project_eqb p current = false ->
  current_stage p = "setup" ->
  funded_so_far p = Some 0 ->
  (setup_cost p - 0 <= budget ->
   exists p',
     fund_project current (visited, budget, acts) (key, p)
     = Ok ((visited ++ [(key, p')])%list, budget - (setup_cost p - 0),
           (acts ++ [("Funded " ++ name p)%string])%list)
     /\ current_stage p' = "growth"
     /\ funded_so_far p' = Some (0 + (setup_cost p - 0)))
  /\ (budget < setup_cost p - 0 ->
      fund_project current (visited, budget, acts) (key, p)
      = Ok ((visited ++ [(key, p)])%list, budget, acts)).
Proof.
  intros Hin Hst Hf. unfold fund_project. rewrite Hin, Hst, Hf.
  cbn [negb andb String.eqb]. split.
  - intro Hle. apply Qle_bool_iff in Hle.
    change (String.eqb "setup" "setup") with true. cbn iota. rewrite Hle.
    cbn [set_funded_so_far setup_cost].
    assert (Hfull : Qle_bool (setup_cost p) (0 + (setup_cost p - 0)) = true)
      by (apply Qle_bool_iff; lra).
    rewrite Hfull. eexists. split; [reflexivity|]. split; reflexivity.
  - intro Hlt. apply Qlt_bool_iff in Hlt. unfold Qlt_bool in Hlt.
    apply negb_true_iff in Hlt.
    change (String.eqb "setup" "setup") with true. cbn iota. now rewrite Hlt.
Qed.

(** No project is ever active in a run that returns, and every monthly
    profit is 0. *)
Lemma optimize_no_active (self : FarmOptimizer) (pm : Z)
  (cur : list Project) (ups : list InfrastructureUpgrade)
  (fp : FinancialProjection) :
  optimize_with_infrastructure self pm = Ok (cur, ups, fp) ->
  cur = [] /\ Forall (fun x => x == 0) (monthly_profits fp).
Proof.
  unfold optimize_with_infrastructure. intro H.
  destruct (state_after self pm (Z.to_nat pm)) as [sn|e] eqn:Hn; [|discriminate].
  cbn [bind] in H. injection H as <- _ <-.
  apply (state_after_invariant
           (fun s => current_projects s = []
                     /\ Forall (fun x => x == 0)
                               (monthly_profits (financial_projection s)))
           self pm) with (k := Z.to_nat pm); [| |exact Hn].
  - split; [reflexivity|constructor].
  - intros s m s' [Hcur Hall] Hp. split.
    + exact (period_keeps_no_active pm s m s' Hcur Hp).
    + apply period_inv in Hp.
      destruct Hp as [t [pl [re [r [acts [Ht [_ [_ [_ [_ Hprof]]]]]]]]]].
      destruct (month_terms_no_active s m t Hcur Ht) as [_ [Hr [Hc Hw]]].
      rewrite Hprof, Hr, Hc, Hw. apply Forall_app. split; [exact Hall|].
      constructor; [reflexivity|constructor].
Qed.

(** C2.  On a catalogue of one project built by the dataclass constructor,
    still in "setup", the funding pass of the first month funds nothing and
    records nothing: reading the amount already funded raises. *)
Theorem funding_pass_raises :
  current_stage Scenario.plants = "setup"
  /\ optimize_with_infrastructure
       (Scenario.optimizer (Scenario.res 20 500 None)
          [("plants", Scenario.plants)]) 1
     = Raise AttributeError.
Proof.
  split; [reflexivity|]. apply optimize_unset_counter.
  - reflexivity.
  - intros key p [H|[]]. now injection H as _ <-.
  - exists "plants", Scenario.plants. split; [now left|reflexivity].
Qed.

(** C1.  A project with no startup time, a base revenue of 100, a seasonal
    multiplier of 1 and a sale probability of 0.5 earns nothing in month 0:
    the run raises in the funding pass; and when the caller has set the
    amount already funded on the object, the project is funded but never
    made active, and the profit of every month is 0. *)
Theorem startup_zero_project_earns_nothing :
  startup_time_months Scenario.plants = 0%Z
  /\ ~ monthly_revenue Scenario.plants == 0
  /\ ~ base_sales_probability Scenario.plants == 0
  /\ dict_get Season_eqb (from_month 0) (seasonal_multipliers Scenario.plants)
     = Some 1
  /\ optimize_with_infrastructure
       (Scenario.optimizer (Scenario.res 20 500 None)
          [("plants", Scenario.plants)]) 2
     = Raise AttributeError
  /\ exists ups fp,
       optimize_with_infrastructure
         (Scenario.optimizer (Scenario.res 20 500 None)
            [("plants", Scenario.funded_project)]) 2
       = Ok ([], ups, fp)
       /\ map actions (monthly_details fp)
          = [["Funded Plants"; "Implemented upgrade: Greenhouse Construction"];
             []]
       /\ monthly_profits fp = [0; 0].
Proof.
  split; [reflexivity|]. split; [discriminate|].
  split; [discriminate|]. split; [reflexivity|]. split.
  - vm_compute. reflexivity.
  - eexists. eexists. split; [vm_compute; reflexivity|].
    split; reflexivity.
Qed.

(** ** Independence from the power fields *)

Lemma differ_only_in_power_erase (r1 r2 : Resources) :
  differ_only_in_power r1 r2 -> erase_power r1 = erase_power r2.
Proof.
  unfold differ_only_in_power, erase_power.
  intros [E1 [E2 [E3 [E4 [E5 [E6 [E7 [E8 [E9 [E10 [E11 [E12 [E13 E14]]]]]]]]]]]]].
  now rewrite E1, E2, E3, E4, E5, E6, E7, E8, E9, E10, E11, E12, E13, E14.
Qed.

Lemma apply_impact_erase (r1 r2 : Resources) (item : string * Q) :
  erase_power r1 = erase_power r2 ->
  fmap erase_power (apply_impact r1 item) = fmap erase_power (apply_impact r2 item).
Proof.
  intro H. destruct r1, r2. unfold erase_power in H. cbn in H.
  injection H as -> -> -> -> -> -> -> -> -> -> -> -> -> ->.
  destruct item as [resource impact]. unfold apply_impact, add_to_attr.
  destruct (hasattr resource); [|reflexivity].
  repeat (match goal with
          | |- context [String.eqb resource ?k] =>
              destruct (String.eqb resource k); [reflexivity|]
          end).
  reflexivity.
Qed.

Lemma apply_upgrade_erase (u : InfrastructureUpgrade) (r1 r2 : Resources) :
  erase_power r1 = erase_power r2 ->
  fmap erase_power (apply_upgrade u r1) = fmap erase_power (apply_upgrade u r2).
Proof.
  unfold apply_upgrade. revert r1 r2.
  induction (resource_impacts u) as [|item items IH]; intros r1 r2 H.
  - cbn [for_each fmap]. now rewrite H.
  - cbn [for_each]. pose proof (apply_impact_erase r1 r2 item H) as Hi.
    destruct (apply_impact r1 item) as [r1'|e1], (apply_impact r2 item) as [r2'|e2];
      cbn [fmap] in Hi; try discriminate.
    + cbn [bind]. apply IH. congruence.
    + cbn [bind fmap]. exact Hi.
Qed.

Lemma month_terms_erase (s : LoopState) (m : nat) :
  month_terms (erase_state s) m = fmap erase_terms (month_terms s m).
Proof.
  unfold month_terms. cbn [erase_state current_projects self_ available_budget].
  destruct (update_actives (current_projects s)) as [cur|e]; [|reflexivity].
  cbn [bind].
  change (projects (erase_self (self_ s))) with (projects (self_ s)).
  destruct (fund_projects (projects (self_ s)) cur (available_budget s))
    as [[[cat b] acts]|e]; [|reflexivity].
  cbn [bind].
  change (month_revenue (set_projects cat (erase_self (self_ s))) (from_month m) cur)
    with (month_revenue (set_projects cat (self_ s)) (from_month m) cur).
  destruct (month_revenue (set_projects cat (self_ s)) (from_month m) cur)
    as [rev|e]; [|reflexivity].
  cbn [bind].
  change (month_water_costs (set_projects cat (erase_self (self_ s))) cur)
    with (month_water_costs (set_projects cat (self_ s)) cur).
  destruct (month_water_costs (set_projects cat (self_ s)) cur) as [w|e];
    reflexivity.
Qed.

Lemma implement_upgrade_erase (self : FarmOptimizer) (current : list Project)
  (planned : list InfrastructureUpgrade) (amount : Q) (acts : list string)
  (horizon : Z) :
  fmap erase_decision
       (implement_upgrade (erase_self self) current planned amount acts horizon)
  = fmap erase_decision
         (implement_upgrade self current planned amount acts horizon).
Proof.
  unfold implement_upgrade.
  change (affordable_upgrades (erase_self self) planned amount)
    with (affordable_upgrades self planned amount).
  change (best_upgrade (erase_self self) current horizon
            (affordable_upgrades self planned amount))
    with (best_upgrade self current horizon
            (affordable_upgrades self planned amount)).
  destruct (best_upgrade self current horizon _) as [[u|]|e]; try reflexivity.
  cbn [bind].
  assert (H : fmap erase_power (apply_upgrade u (resources (erase_self self)))
              = fmap erase_power (apply_upgrade u (resources self)))
    by (apply apply_upgrade_erase; reflexivity).
  destruct (apply_upgrade u (resources (erase_self self))) as [ra|ea],
           (apply_upgrade u (resources self)) as [rb|eb];
    cbn [fmap] in H; try discriminate.
  - cbn [bind fmap erase_decision]. congruence.
  - cbn [bind fmap]. congruence.
Qed.

Lemma period_erase (pm : Z) (s : LoopState) (m : nat) :
  fmap erase_state (period pm (erase_state s) m)
  = fmap erase_state (period pm s m).
Proof.
  unfold period. rewrite month_terms_erase.
  destruct (month_terms s m) as [t|e]; [|reflexivity].
  cbn [fmap bind].
  change (mt_self (erase_terms t)) with (erase_self (mt_self t)).
  cbn [erase_terms mt_current mt_budget mt_actions mt_revenue mt_costs
       mt_water_costs erase_state planned_upgrades].
  pose proof (implement_upgrade_erase (mt_self t) (mt_current t)
                (planned_upgrades s)
                (mt_revenue t - mt_costs t - mt_water_costs t + mt_budget t)
                (mt_actions t) (pm - Z.of_nat m)) as H.
  destruct (implement_upgrade (erase_self (mt_self t)) _ _ _ _ _) as [d1|e1],
           (implement_upgrade (mt_self t) _ _ _ _ _) as [d2|e2];
    cbn [fmap] in H; try discriminate; cbn [bind fmap].
  - f_equal. apply (close_month_erase s t m d1 d2). congruence.
  - congruence.
Qed.

Lemma run_erase (pm : Z) (months : list nat) :
  forall s1 s2,
    erase_state s1 = erase_state s2 ->
    fmap erase_state (for_each (period pm) months s1)
    = fmap erase_state (for_each (period pm) months s2).
Proof.
  induction months as [|m months IH]; intros s1 s2 H.
  - cbn [for_each fmap]. now rewrite H.
  - cbn [for_each].
    assert (Hm : fmap erase_state (period pm s1 m)
                 = fmap erase_state (period pm s2 m)).
    { rewrite <- (period_erase pm s1 m), <- (period_erase pm s2 m).
      now rewrite H. }
    destruct (period pm s1 m) as [s1'|e1], (period pm s2 m) as [s2'|e2];
      cbn [fmap] in Hm; try discriminate; cbn [bind].
    + apply IH. congruence.
    + congruence.
Qed.

(** C10.  Two snapshots that agree on every field but the battery capacity
    and the daytime power available give the same outcome over the same
    catalogue and the same number of months: the same exception, or the same
    active projects, applied upgrades and financial trace. *)
Theorem optimize_ignores_power (self : FarmOptimizer) (r1 r2 : Resources)
  (pm : Z) :
  differ_only_in_power r1 r2 ->
  optimize_with_infrastructure (set_resources r1 self) pm
  = optimize_with_infrastructure (set_resources r2 self) pm.
Proof.
  intro Hd. pose proof (differ_only_in_power_erase r1 r2 Hd) as He.
  unfold optimize_with_infrastructure, state_after.
  assert (H0 : erase_state (initial_state (set_resources r1 self))
               = erase_state (initial_state (set_resources r2 self))).
  { unfold erase_state, initial_state, erase_self, set_resources.
    cbn [self_ resources projects infrastructure_upgrades current_projects
         planned_upgrades available_budget accumulated financial_projection].
    destruct Hd as [_ [_ [_ [_ [Hm [Hi _]]]]]]. now rewrite He, Hm, Hi. }
  pose proof (run_erase pm (seq 0 (Z.to_nat pm)) _ _ H0) as Hrun.
  destruct (for_each (period pm) (seq 0 (Z.to_nat pm))
                     (initial_state (set_resources r1 self))) as [s1|e1],
           (for_each (period pm) (seq 0 (Z.to_nat pm))
                     (initial_state (set_resources r2 self))) as [s2|e2];
    cbn [fmap] in Hrun; try discriminate; cbn [bind].
  - assert (Hs : erase_state s1 = erase_state s2) by congruence.
    change (current_projects s1) with (current_projects (erase_state s1)).
    change (planned_upgrades s1) with (planned_upgrades (erase_state s1)).
    change (financial_projection s1) with (financial_projection (erase_state s1)).
    now rewrite Hs.
  - congruence.
Qed.

Lemma optimize_ignores_power_witness :
  optimize_with_infrastructure
    (set_resources (Scenario.res 20 3000 None)
       (Scenario.optimizer (Scenario.res 20 3000 None)
          [("plants", Scenario.funded_project)])) 3
  = optimize_with_infrastructure
      (set_resources
         (mkResources 10 1 2 20 15 0 3000 12 (8, 10) (1 # 2) 200 py_True 0
                      None (7 # 10) 25000)
         (Scenario.optimizer (Scenario.res 20 3000 None)
            [("plants", Scenario.funded_project)])) 3.
Proof.
  apply optimize_ignores_power.
  unfold differ_only_in_power. cbn. repeat split.
Defined.

(** * Further properties of the module *)

(** ** Seasons *)

(** X1.  The season of a month repeats every four months, and the season
    that the ROI estimator rebuilds from the list of values never fails and
    is the one [Season.from_month] gives. *)
Theorem season_of_month_cycle (m : nat) :
  from_month (m + 4) = from_month m
  /\ roi_season (m + 4) = roi_season m
  /\ roi_season m = Ok (from_month m).
Proof.
  assert (H : ((m + 4) mod 4 = m mod 4)%nat).
  { replace (m + 4)%nat with (m + 1 * 4)%nat by lia. apply Nat.Div0.mod_add. }
  split; [unfold from_month; now rewrite H|].
  split; [unfold roi_season; now rewrite H|].
  apply roi_season_from_month.
Qed.

(** ** Stage of a project *)

Lemma update_stage_setup_step (p : Project) :
  current_stage p = "setup" ->
  startup_time_months p <> 0%Z ->
  current_stage (update_stage p) = "setup"
  /\ startup_time_months (update_stage p) = (startup_time_months p - 1)%Z.
Proof.
  intros Hs Hn. unfold update_stage. rewrite Hs.
  apply Z.eqb_neq in Hn. rewrite Hn. cbn. now rewrite Hs.
Qed.

Lemma update_stage_not_setup (p : Project) :
  current_stage p <> "setup" -> update_stage p = p.
Proof.
  intro Hs. unfold update_stage. apply String.eqb_neq in Hs. now rewrite Hs.
Qed.

Lemma update_stage_countdown_setup (n : nat) :
  forall p k,
    current_stage p = "setup" ->
    startup_time_months p = Z.of_nat n ->
    (k <= n)%nat ->
    current_stage (Nat.iter k update_stage p) = "setup"
    /\ startup_time_months (Nat.iter k update_stage p) = Z.of_nat (n - k).
Proof.
  intros p k Hs Hn. induction k as [|k IH]; intro Hk.
  - cbn. now rewrite Nat.sub_0_r.
  - destruct IH as [IHs IHn]; [lia|]. rewrite Nat.iter_succ.
    destruct (update_stage_setup_step _ IHs) as [Hs' Hn']; [rewrite IHn; lia|].
    split; [exact Hs'|]. rewrite Hn', IHn. lia.
Qed.

(** X2.  A project in "setup" with [n] months of startup stays in "setup"
    through [n] updates, counting its startup time down to 0, reaches
    "production" at update [n + 1], and is left as it is by every later
    update. *)
Theorem update_stage_countdown (p : Project) (n : nat) :
  current_stage p = "setup" ->
  startup_time_months p = Z.of_nat n ->
  (forall k, (k <= n)%nat ->
     current_stage (Nat.iter k update_stage p) = "setup"
     /\ startup_time_months (Nat.iter k update_stage p) = Z.of_nat (n - k))
  /\ current_stage (Nat.iter (S n) update_stage p) = "production"
  /\ forall k, (n < k)%nat ->
       Nat.iter k update_stage p = Nat.iter (S n) update_stage p.
Proof.
  intros Hs Hn.
  assert (Hn1 : current_stage (Nat.iter (S n) update_stage p) = "production").
  { destruct (update_stage_countdown_setup n p n Hs Hn (le_n n)) as [Hs' Hn'].
    rewrite Nat.iter_succ. unfold update_stage at 1.
    rewrite Hs', Hn', Nat.sub_diag. reflexivity. }
  split; [intros k Hk; now apply update_stage_countdown_setup|].
  split; [exact Hn1|].
  intros k Hk. induction k as [|k IH]; [lia|].
  destruct (Nat.eq_dec k n) as [->|Hne]; [reflexivity|].
  rewrite Nat.iter_succ, IH by lia. rewrite <- Nat.iter_succ. apply update_stage_not_setup. rewrite Hn1. discriminate.
Qed.

Lemma update_stage_countdown_witness :
  current_stage (Nat.iter 1 update_stage Scenario.plants) = "production".
Proof.
  apply (update_stage_countdown Scenario.plants 0); reflexivity.
Defined.

(** X3.  A project in "setup" whose startup time is negative never reaches
    "production": every update lowers the startup time by one and leaves the
    stage as it is. *)
Theorem update_stage_negative_startup (p : Project) (k : nat) :
  current_stage p = "setup" ->
  (startup_time_months p < 0)%Z ->
  current_stage (Nat.iter k update_stage p) = "setup"
  /\ startup_time_months (Nat.iter k update_stage p)
     = (startup_time_months p - Z.of_nat k)%Z.
Proof.
  intros Hs Hn. induction k as [|k [IHs IHn]].
  - cbn. split; [exact Hs|lia].
  - rewrite Nat.iter_succ.
    destruct (update_stage_setup_step _ IHs) as [Hs' Hn']; [rewrite IHn; lia|].
    split; [exact Hs'|]. rewrite Hn', IHn. lia.
Qed.

Lemma update_stage_negative_startup_witness :
  current_stage (Nat.iter 5 update_stage (Scenario.project 200 (-1) 1)) = "setup".
Proof.
  apply (update_stage_negative_startup (Scenario.project 200 (-1) 1) 5).
  - reflexivity.
  - reflexivity.
Defined.

(** ** Water transport cost, again *)

(** X4.  The water cost raises exactly when the fuel economy is 0, whatever
    the gallons, and the exception is [ZeroDivisionError]; otherwise it
    returns a number. *)
Theorem calculate_water_costs_raises_iff (self : FarmOptimizer) (g : Q) :
  (truck_mpg (resources self) == 0
   /\ calculate_water_costs self g = Raise ZeroDivisionError)
  \/ (~ truck_mpg (resources self) == 0
      /\ exists c, calculate_water_costs self g = Ok c).
Proof.
  unfold calculate_water_costs, py_div.
  destruct (Qeq_bool (truck_mpg (resources self)) 0) eqn:E.
  - left. split; [now apply Qeq_bool_iff|reflexivity].
  - right. split; [now apply Qeq_bool_neq|]. cbn [bind]. eexists. reflexivity.
Qed.

(** X5.  The water cost is never negative for gallons, a distance and a
    fuel economy that are not negative. *)
Theorem calculate_water_costs_nonneg (self : FarmOptimizer) (g c : Q) :
  calculate_water_costs self g = Ok c ->
  0 <= g ->
  0 <= water_distance_miles (resources self) ->
  0 <= truck_mpg (resources self) ->
  0 <= c.
Proof.
  unfold calculate_water_costs, py_div.
  destruct (Qeq_bool (truck_mpg (resources self)) 0) eqn:E; [discriminate|].
  apply Qeq_bool_neq in E. cbn [bind]. intros H Hg Hd Hm. injection H as <-.
  assert (Hpos : 0 < truck_mpg (resources self)).
  { apply Qle_lteq in Hm. destruct Hm as [Hm|Hm]; [exact Hm|].
    exfalso. apply E. now symmetry. }
  apply Qmult_le_0_compat.
  - apply Qmult_le_0_compat; [|discriminate].
    apply Qmult_le_0_compat; [|exact Hd].
    apply Qle_shift_div_l; [reflexivity|].
    rewrite Qmult_0_l. apply Qmult_le_0_compat; [exact Hg|discriminate].
  - apply Qle_shift_div_l; [exact Hpos|]. rewrite Qmult_0_l. discriminate.
Qed.

Lemma calculate_water_costs_nonneg_witness :
  exists c, calculate_water_costs Scenario.bare 10 = Ok c /\ 0 <= c.
Proof.
  destruct (calculate_water_costs Scenario.bare 10) as [c|e] eqn:E;
    [|vm_compute in E; discriminate E].
  exists c. split; [reflexivity|].
  apply (calculate_water_costs_nonneg Scenario.bare 10 c E); discriminate.
Defined.

(** ** Revenue model, again *)

(** X6.  The revenue of a project for a season raises exactly when the
    project's table has no multiplier for the season, and the exception is
    [KeyError]; otherwise it returns a number. *)
Theorem calculate_market_adjusted_revenue_raises_iff
  (self : FarmOptimizer) (p : Project) (season : Season) :
  (dict_get Season_eqb season (seasonal_multipliers p) = None
   /\ calculate_market_adjusted_revenue self p season = Raise KeyError)
  \/ ((exists m, dict_get Season_eqb season (seasonal_multipliers p) = Some m)
      /\ exists v, calculate_market_adjusted_revenue self p season = Ok v).
Proof.
  unfold calculate_market_adjusted_revenue, dict_item.
  destruct (dict_get Season_eqb season (seasonal_multipliers p)) as [m|].
  - right. split; [now exists m|]. cbn [bind]. eexists. reflexivity.
  - left. split; reflexivity.
Qed.

Lemma dict_get_In {V : Type} (season : Season) (d : dict Season V) (v : V) :
  dict_get Season_eqb season d = Some v -> In v (map snd d).
Proof.
  induction d as [|[k w] d IH]; cbn [dict_get map snd]; [discriminate|].
  destruct (Season_eqb season k).
  - intro H. injection H as ->. now left.
  - intro H. right. now apply IH.
Qed.

(** X7.  The revenue is not negative when the base revenue, every seasonal
    multiplier, the climate bonus, the sales multiplier of every connection
    and the sale probability are not negative. *)
Theorem calculate_market_adjusted_revenue_nonneg
  (self : FarmOptimizer) (p : Project) (season : Season) (v : Q) :
  0 <= monthly_revenue p ->
  Forall (fun m => 0 <= m) (map snd (seasonal_multipliers p)) ->
  0 <= climate_controlled_benefit p ->
  (forall c, serves self p c -> 0 <= sales_multiplier c) ->
  0 <= base_sales_probability p ->
  calculate_market_adjusted_revenue self p season = Ok v ->
  0 <= v.
Proof.
  intros Hbase Hmult Hclim Hconn Hprob.
  unfold calculate_market_adjusted_revenue, dict_item.
  destruct (dict_get Season_eqb season (seasonal_multipliers p)) as [m|] eqn:Hm;
    [|discriminate].
  cbn [bind]. intro H. injection H as <-.
  assert (H0 : 0 <= m).
  { rewrite Forall_forall in Hmult. apply Hmult. exact (dict_get_In _ _ _ Hm). }
  assert (H1 : 0 <= monthly_revenue p * m) by now apply Qmult_le_0_compat.
  assert (H2 : 0 <= (if is_indoor p
                        && Qle_bool (space_required_sqft p)
                                    (climate_controlled_sqft (resources self))
                     then monthly_revenue p * m * climate_controlled_benefit p
                     else monthly_revenue p * m)).
  { destruct (is_indoor p && Qle_bool _ _); [|exact H1].
    now apply Qmult_le_0_compat. }
  apply Qmult_le_0_compat; [|exact Hprob].
  destruct (relevant_connections self p) as [|c cs] eqn:Hrel; cbn [map];
    [exact H2|].
  apply Qmult_le_0_compat; [exact H2|].
  pose proof (py_max_In (map sales_multiplier cs) (sales_multiplier c)) as Hin.
  change (sales_multiplier c :: map sales_multiplier cs)
    with (map sales_multiplier (c :: cs)) in Hin.
  apply in_map_iff in Hin. destruct Hin as [c' [<- Hc']].
  apply Hconn. apply relevant_connections_iff. now rewrite Hrel.
Qed.

Lemma calculate_market_adjusted_revenue_nonneg_witness :
  exists v,
    calculate_market_adjusted_revenue
      (Scenario.optimizer (Scenario.res 20 500 (Some [Scenario.nursery])) [])
      Scenario.plants SPRING = Ok v
    /\ 0 <= v.
Proof.
  destruct (calculate_market_adjusted_revenue
              (Scenario.optimizer
                 (Scenario.res 20 500 (Some [Scenario.nursery])) [])
              Scenario.plants SPRING) as [v|e] eqn:E;
    [|vm_compute in E; discriminate E].
  exists v. split; [reflexivity|].
  apply (calculate_market_adjusted_revenue_nonneg
           (Scenario.optimizer (Scenario.res 20 500 (Some [Scenario.nursery])) [])
           Scenario.plants SPRING v).
  - discriminate.
  - repeat constructor; discriminate.
  - discriminate.
  - intros c [conns [Hc [Hin _]]]. injection Hc as <-.
    destruct Hin as [<-|[]]. discriminate.
  - discriminate.
  - exact E.
Defined.

(** ** Project score, again *)

Lemma synergy_bonus_snoc (p q : Project) (selected : list Project) :
  (linked p q = false ->
   synergy_bonus p (selected ++ [q]) = synergy_bonus p selected)
  /\ synergy_bonus p selected <= synergy_bonus p (selected ++ [q]).
Proof.
  unfold synergy_bonus. rewrite filter_app, map_app. cbn [filter].
  change (str_in (name p) (synergy_projects q)
          || str_in (name q) (synergy_projects p)) with (linked p q).
  destruct (linked p q); cbn [map].
  - split; [discriminate|]. rewrite py_sum_snoc. lra.
  - rewrite app_nil_r. split; [reflexivity|apply Qle_refl].
Qed.

(** X8.  The score of a project is a number exactly when neither the fuel
    economy nor the setup cost of the project is 0; otherwise the call raises
    [ZeroDivisionError]. *)
Theorem calculate_project_score_returns_iff (self : FarmOptimizer)
  (p : Project) (selected : list Project) :
  (~ truck_mpg (resources self) == 0 /\ ~ setup_cost p == 0
   /\ exists v, calculate_project_score self p selected = Ok v)
  \/ ((truck_mpg (resources self) == 0 \/ setup_cost p == 0)
      /\ calculate_project_score self p selected = Raise ZeroDivisionError).
Proof.
  unfold calculate_project_score, calculate_water_costs.
  destruct (Qeq_bool (truck_mpg (resources self)) 0) eqn:Em.
  - apply Qeq_bool_iff in Em. right. split; [now left|].
    now rewrite (py_div_zero _ _ Em).
  - apply Qeq_bool_neq in Em. rewrite (py_div_ok _ _ Em). cbn [bind].
    destruct (Qeq_bool (setup_cost p) 0) eqn:Es.
    + apply Qeq_bool_iff in Es. right. split; [now right|].
      now rewrite (py_div_zero _ _ Es).
    + apply Qeq_bool_neq in Es. left. split; [exact Em|]. split; [exact Es|].
      rewrite (py_div_ok _ _ Es). cbn [bind]. eexists. reflexivity.
Qed.

(** X9.  Selecting one more project never lowers the score of a candidate:
    the score stays exactly as it is when the two are not linked (neither
    names the other among its synergy projects), and does not decrease when
    they are. *)
Theorem calculate_project_score_synergy (self : FarmOptimizer)
  (p q : Project) (selected : list Project) (v : Q) :
  calculate_project_score self p selected = Ok v ->
  exists v',
    calculate_project_score self p (selected ++ [q]) = Ok v'
    /\ (linked p q = false -> v' = v)
    /\ v <= v'.
Proof.
  unfold calculate_project_score.
  destruct (calculate_water_costs self (water_gallons_daily p)) as [w|e];
    [|discriminate].
  cbn [bind].
  destruct (py_div _ (setup_cost p)) as [roi|e]; [|discriminate].
  cbn [bind]. intro H. injection H as <-.
  destruct (synergy_bonus_snoc p q selected) as [Hsame Hle].
  eexists. split; [reflexivity|]. split.
  - intro Hl. now rewrite (Hsame Hl).
  - lra.
Qed.

Lemma calculate_project_score_synergy_witness :
  exists v',
    calculate_project_score Scenario.bare Scenario.plants
      ([] ++ [Scenario.indoor_project]) = Ok v'.
Proof.
  destruct (calculate_project_score Scenario.bare Scenario.plants [])
    as [v|e] eqn:E; [|vm_compute in E; discriminate E].
  destruct (calculate_project_score_synergy Scenario.bare Scenario.plants
              Scenario.indoor_project [] v E) as [v' [Hv' _]].
  now exists v'.
Defined.

(** ** Infrastructure ROI, again *)

Lemma roi_total_benefit_no_project (self : FarmOptimizer)
  (u : InfrastructureUpgrade) (h : Z) :
  roi_total_benefit self u [] h = Ok 0.
Proof.
  unfold roi_total_benefit.
  assert (H : forall ms acc,
             for_each (roi_month_benefit self u []) ms acc = Ok acc).
  { induction ms as [|m ms IH]; intro acc; [reflexivity|].
    cbn [for_each]. unfold roi_month_benefit at 1.
    rewrite roi_season_from_month. cbn [bind for_each]. apply IH. }
  apply H.
Qed.

Lemma calculate_infrastructure_roi_no_project_value (self : FarmOptimizer)
  (u : InfrastructureUpgrade) (h : Z) :
  exists v,
    calculate_infrastructure_roi self u [] h = Ok v
    /\ (0 < roi_total_cost u h -> v == -(1))
    /\ (roi_total_cost u h <= 0 -> v = 0).
Proof.
  unfold calculate_infrastructure_roi. rewrite roi_total_benefit_no_project.
  cbn [bind]. destruct (Qlt_bool 0 (roi_total_cost u h)) eqn:E.
  - eexists. split; [reflexivity|]. apply Qlt_bool_iff in E. split.
    + intros _. field. intro H0. rewrite H0 in E. discriminate.
    + intro Hle. exfalso. exact (Qlt_not_le _ _ E Hle).
  - eexists. split; [reflexivity|]. apply Qlt_bool_false_iff in E. split.
    + intro Hlt. exfalso. exact (Qlt_not_le _ _ Hlt E).
    + reflexivity.
Qed.

(** X10.  With no active project the estimator never raises: it rates an
    upgrade by minus its total cost over its total cost, which is -1, when
    the total cost is positive, and by 0 otherwise, whatever the upgrade
    would change. *)
Theorem calculate_infrastructure_roi_no_project (self : FarmOptimizer)
  (u : InfrastructureUpgrade) (h : Z) :
  exists v,
    calculate_infrastructure_roi self u [] h = Ok v
    /\ (0 < roi_total_cost u h -> v == -(1))
    /\ (roi_total_cost u h <= 0 -> v = 0).
Proof.
  destruct (calculate_infrastructure_roi_no_project_value self u h)
    as [v [Hv [Hpos Hneg]]].
  exists v. split; [exact Hv|]. split; assumption.
Qed.

(** X11.  An upgrade built without a seasonal table gets the multiplier 1
    for every season, so the benefit that the estimator adds up for it is 0
    over any projects and any horizon. *)
Theorem new_InfrastructureUpgrade_default_benefit (self : FarmOptimizer)
  (name_ : string) (cost_ : Q) (impacts : dict string Q) (operating_cost : Q)
  (ps : list Project) (h : Z) (B : Q) :
  (forall season,
     dict_item Season_eqb season
       (seasonal_benefits
          (new_InfrastructureUpgrade name_ cost_ impacts operating_cost None))
     = Ok 1)
  /\ (roi_total_benefit self
        (new_InfrastructureUpgrade name_ cost_ impacts operating_cost None)
        ps h = Ok B ->
      B == 0).
Proof.
  assert (Hall : forall season,
             dict_item Season_eqb season
               (seasonal_benefits
                  (new_InfrastructureUpgrade name_ cost_ impacts
                                             operating_cost None))
             = Ok 1) by (intros []; reflexivity).
  split; [exact Hall|].
  unfold roi_total_benefit. intro Hrun.
  apply (for_each_invariant (fun b => b == 0) _ _) with (s := 0) (s' := B)
    in Hrun; [exact Hrun| |reflexivity].
  intros s m s' _ Hs Hm. unfold roi_month_benefit in Hm.
  destruct (roi_season m) as [season|]; [|discriminate]. cbn [bind] in Hm.
  apply (for_each_invariant (fun b => b == 0) _ _) with (s := s) (s' := s')
    in Hm; [exact Hm| |exact Hs].
  intros b p b' _ Hb Hp. unfold roi_project_benefit in Hp.
  destruct (is_indoor p); [|injection Hp as <-; exact Hb].
  destruct (calculate_market_adjusted_revenue self p season) as [rev|];
    [|discriminate].
  cbn [bind] in Hp.
  destruct (dict_mem String.eqb "climate_controlled_sqft" _);
    [|injection Hp as <-; exact Hb].
  rewrite Hall in Hp. cbn [bind] in Hp. injection Hp as <-.
  rewrite Hb. ring.
Qed.

(** ** Applying an upgrade *)

Lemma apply_impact_cases (r : Resources) (resource : string) (impact : Q) :
  ((resource = "work_hours_daily" \/ resource = "market_connections")
   /\ apply_impact r (resource, impact) = Raise TypeError)
  \/ (resource <> "work_hours_daily" /\ resource <> "market_connections"
      /\ exists r', apply_impact r (resource, impact) = Ok r').
Proof.
  destruct (String.eqb resource "work_hours_daily") eqn:Ew.
  { apply String.eqb_eq in Ew. subst. left. split; [now left|].
    now destruct r. }
  destruct (String.eqb resource "market_connections") eqn:Em.
  { apply String.eqb_eq in Em. subst. left. split; [now right|].
    now destruct r. }
  right. apply String.eqb_neq in Ew as Hw. apply String.eqb_neq in Em as Hm.
  split; [exact Hw|]. split; [exact Hm|].
  unfold apply_impact, hasattr, str_in, Resources_fields.
  cbn [existsb]. rewrite Ew, Em. destruct r. unfold add_to_attr.
  repeat (match goal with
          | |- context [String.eqb resource ?k] =>
              destruct (String.eqb resource k);
              [cbn [orb]; eexists; reflexivity|]
          end).
  cbn [orb]. eexists. reflexivity.
Qed.

(** X12.  For an upgrade whose impacts are keyed by public names, applying
    it raises exactly when one of the keys is the work hours or the market
    connections, the two fields that hold no number, and the exception is
    [TypeError]; an impact whose key is no field of the resources is
    skipped. *)
Theorem apply_upgrade_raises_iff (u : InfrastructureUpgrade) (r : Resources) :
  (forall resource impact,
     In (resource, impact) (resource_impacts u) -> public_name resource = true) ->
  ((exists impact,
      In ("work_hours_daily", impact) (resource_impacts u)
      \/ In ("market_connections", impact) (resource_impacts u))
   /\ apply_upgrade u r = Raise TypeError)
  \/ ((forall resource impact,
         In (resource, impact) (resource_impacts u) ->
         resource <> "work_hours_daily" /\ resource <> "market_connections")
      /\ (exists r', apply_upgrade u r = Ok r')
      /\ ((forall resource impact,
             In (resource, impact) (resource_impacts u) ->
             hasattr resource = false) ->
          apply_upgrade u r = Ok r)).
Proof.
  intros _. unfold apply_upgrade. revert r.
  induction (resource_impacts u) as [|[resource impact] items IH]; intro r.
  - right. split; [intros ? ? []|]. split; [now exists r|reflexivity].
  - cbn [for_each].
    destruct (apply_impact_cases r resource impact)
      as [[Hbad Hraise]|[Hw [Hm [r' Hok]]]].
    + left. rewrite Hraise. split; [|reflexivity].
      exists impact. destruct Hbad as [-> | ->]; [left|right]; now left.
    + rewrite Hok. cbn [bind].
      destruct (IH r') as [[[i Hin] Hraise]|[Hgood [Hex Hskip]]].
      * left. split; [|exact Hraise].
        exists i. destruct Hin as [Hin|Hin]; [left|right]; now right.
      * right. split; [|split; [exact Hex|]].
        -- intros k v [Heq|Hin]; [|now apply (Hgood k v)].
           injection Heq as <- <-. now split.
        -- intro Hnone.
           assert (Hr : r' = r).
           { unfold apply_impact in Hok.
             rewrite (Hnone resource impact (or_introl eq_refl)) in Hok.
             now injection Hok. }
           subst r'. apply Hskip. intros k v Hin. apply (Hnone k v). now right.
Qed.

Lemma apply_upgrade_raises_iff_witness :
  exists r', apply_upgrade Scenario.greenhouse (Scenario.res 20 500 None) = Ok r'.
Proof.
  destruct (apply_upgrade_raises_iff Scenario.greenhouse
              (Scenario.res 20 500 None))
    as [[[impact [Hin|Hin]] _]|[_ [Hok _]]].
  - intros resource impact [H|[H|[]]]; injection H as <- _; reflexivity.
  - destruct Hin as [H|[H|[]]]; discriminate H.
  - destruct Hin as [H|[H|[]]]; discriminate H.
  - exact Hok.
Defined.

(** ** Power feasibility, again *)

Lemma draw_total_filter (uses : PowerTimeOfUse -> bool) (keep : Project -> bool)
  (ps : list Project) :
  (forall p, In p ps -> keep p = false -> 0 <= kwh_daily (power_usage p)) ->
  draw_total uses (filter keep ps) <= draw_total uses ps.
Proof.
  induction ps as [|p ps IH]; intro Hpos; cbn [filter draw_total].
  - apply Qle_refl.
  - assert (IH' : draw_total uses (filter keep ps) <= draw_total uses ps).
    { apply IH. intros q Hq. apply Hpos. now right. }
    destruct (keep p) eqn:Hk; cbn [draw_total].
    + lra.
    + pose proof (Hpos p (or_introl eq_refl) Hk) as Hp.
      destruct (uses (time_of_use (power_usage p))); lra.
Qed.

(** X13.  A list of projects that is feasible stays feasible when projects
    whose draw is not negative are taken out of it, and when the daytime
    power and the battery capacity are raised. *)
Theorem check_power_feasibility_selection_and_capacity (self : FarmOptimizer)
  (ps : list Project) (keep : Project -> bool) (r' : Resources) :
  (forall p, In p ps -> keep p = false -> 0 <= kwh_daily (power_usage p)) ->
  daytime_power_available_kwh (resources self) <= daytime_power_available_kwh r' ->
  battery_capacity_kwh (resources self) <= battery_capacity_kwh r' ->
  check_power_feasibility self ps = true ->
  check_power_feasibility self (filter keep ps) = true
  /\ check_power_feasibility (set_resources r' self) ps = true.
Proof.
  intros Hpos Hd Hb.
  pose proof (draw_total_filter daytime_only keep ps Hpos) as Hfd.
  pose proof (draw_total_filter night_or_any_time keep ps Hpos) as Hfb.
  rewrite !check_power_feasibility_iff. cbn [set_resources resources].
  intros [H1 H2]. split; split; lra.
Qed.

Lemma check_power_feasibility_selection_and_capacity_witness :
  check_power_feasibility Scenario.bare
    (filter is_indoor [Scenario.plants; Scenario.indoor_project]) = true.
Proof.
  assert (Hd : daytime_power_available_kwh (resources Scenario.bare)
               <= daytime_power_available_kwh (resources Scenario.bare))
    by discriminate.
  assert (Hb : battery_capacity_kwh (resources Scenario.bare)
               <= battery_capacity_kwh (resources Scenario.bare))
    by discriminate.
  assert (Hpos : forall p,
             In p [Scenario.plants; Scenario.indoor_project] ->
             is_indoor p = false -> 0 <= kwh_daily (power_usage p)).
  { intros p [<-|[<-|[]]] _; discriminate. }
  exact (proj1 (check_power_feasibility_selection_and_capacity Scenario.bare
                  [Scenario.plants; Scenario.indoor_project] is_indoor
                  (resources Scenario.bare) Hpos Hd Hb eq_refl)).
Defined.

(** ** The loop: shape of the trace *)

Lemma period_trace (pm : Z) (s : LoopState) (m : nat) (s' : LoopState) :
  period pm s m = Ok s' ->
  exists report profit_ savings_ invested,
    financial_projection s'
    = mkFinancialProjection
        (monthly_details (financial_projection s) ++ [report])
        (monthly_profits (financial_projection s) ++ [profit_])
        (accumulated_savings (financial_projection s) ++ [savings_])
        (infrastructure_investments (financial_projection s) ++ [invested])
        (well_savings (financial_projection s) ++ [savings_])
    /\ month report = (m + 1)%nat
    /\ profit report = profit_
    /\ savings report = savings_
    /\ accumulated s' = savings_
    /\ invested = py_sum (map cost (planned_upgrades s')).
Proof.
  unfold period. intro H.
  destruct (month_terms s m) as [t|e]; [|discriminate]. cbn [bind] in H.
  destruct (implement_upgrade _ _ _ _ _ _) as [[[[planned re] r] acts]|e];
    [|discriminate].
  cbn [bind] in H. injection H as <-. unfold close_month.
  cbn [financial_projection accumulated planned_upgrades].
  do 4 eexists. split; [reflexivity|]. cbn. auto.
Qed.

Lemma reached_trace (self : FarmOptimizer) (pm : Z) :
  forall k sk,
    state_after self pm k = Ok sk ->
    List.length (monthly_profits (financial_projection sk)) = k
    /\ List.length (infrastructure_investments (financial_projection sk)) = k
    /\ map month (monthly_details (financial_projection sk)) = seq 1 k
    /\ map profit (monthly_details (financial_projection sk))
       = monthly_profits (financial_projection sk)
    /\ map savings (monthly_details (financial_projection sk))
       = accumulated_savings (financial_projection sk)
    /\ well_savings (financial_projection sk)
       = accumulated_savings (financial_projection sk).
Proof.
  induction k as [|k IH]; intros sk Hk.
  - cbn in Hk. injection Hk as <-. cbn. auto 10.
  - rewrite state_after_S in Hk.
    destruct (state_after self pm k) as [s|e]; [|discriminate].
    cbn [bind] in Hk. destruct (IH s eq_refl) as [H1 [H2 [H3 [H4 [H5 H6]]]]].
    apply period_trace in Hk.
    destruct Hk as [rep [pr [sv [inv [Hfp [Hm [Hp [Hs _]]]]]]]].
    rewrite Hfp. cbn [monthly_details monthly_profits accumulated_savings
                      infrastructure_investments well_savings].
    rewrite !length_app, !map_app, seq_S, H1, H2, H3, H4, H5, H6.
    cbn [List.length map]. rewrite Hm, Hp, Hs.
    repeat split; try lia. now rewrite Nat.add_comm.
Qed.

(** X14.  In a run that returns, the five series of the financial trace
    have one entry for each projected month (none when the number of months
    is 0 or negative); the monthly reports are numbered 1, 2, ... and carry
    the profit and the savings of the series; the well-savings series is the
    accumulated-savings series; no project is returned as active. *)
Theorem optimize_trace_shape (self : FarmOptimizer) (pm : Z)
  (cur : list Project) (ups : list InfrastructureUpgrade)
  (fp : FinancialProjection) :
  optimize_with_infrastructure self pm = Ok (cur, ups, fp) ->
  cur = []
  /\ List.length (monthly_profits fp) = Z.to_nat pm
  /\ List.length (infrastructure_investments fp) = Z.to_nat pm
  /\ map month (monthly_details fp) = seq 1 (Z.to_nat pm)
  /\ map profit (monthly_details fp) = monthly_profits fp
  /\ map savings (monthly_details fp) = accumulated_savings fp
  /\ well_savings fp = accumulated_savings fp.
Proof.
  unfold optimize_with_infrastructure. intro H.
  destruct (state_after self pm (Z.to_nat pm)) as [sn|e] eqn:Hn; [|discriminate].
  cbn [bind] in H. injection H as <- _ <-.
  split; [exact (reached_no_active self pm _ sn Hn)|].
  exact (reached_trace self pm _ sn Hn).
Qed.

Lemma optimize_trace_shape_witness :
  exists fp,
    List.length (monthly_profits fp) = Z.to_nat 3
    /\ map month (monthly_details fp) = seq 1 (Z.to_nat 3).
Proof.
  destruct (optimize_with_infrastructure
              (Scenario.optimizer (Scenario.res 20 3000 None)
                 [("plants", Scenario.funded_project)]) 3)
    as [[[cur ups] fp]|e] eqn:E; [|vm_compute in E; discriminate E].
  exists fp.
  destruct (optimize_trace_shape _ _ _ _ _ E) as [_ [H1 [_ [H2 _]]]].
  split; [exact H1|exact H2].
Defined.

(** ** The loop: which upgrade is applied *)

Lemma period_upgrade_catalogue (pm : Z) (s : LoopState) (m : nat) (s' : LoopState) :
  period pm s m = Ok s' ->
  infrastructure_upgrades (self_ s') = infrastructure_upgrades (self_ s)
  /\ forall u, In u (planned_upgrades s') ->
       In u (planned_upgrades s)
       \/ In u (dict_values (infrastructure_upgrades (self_ s))).
Proof.
  intro H. apply period_inv in H.
  destruct H as [t [pl [re [r [acts [Ht [Hu [_ [Hpl [Hself _]]]]]]]]]].
  apply month_terms_inv in Ht. destruct Ht as [cat [_ [_ [Hts _]]]].
  split; [now rewrite Hself, Hts|].
  apply implement_upgrade_planned in Hu. rewrite Hts in Hu.
  cbn [set_projects infrastructure_upgrades] in Hu. rewrite Hpl.
  intros u Hin. destruct Hu as [->|[u' [-> [_ [Hcat _]]]]]; [now left|].
  apply in_app_or in Hin. destruct Hin as [Hin|[<-|[]]]; [now left|now right].
Qed.

(** X16.  Every upgrade that a run returns as applied is an entry of the
    catalogue of upgrades, so a run applies at most as many upgrades as the
    catalogue holds, however many months are projected. *)
Theorem applied_upgrades_from_catalogue (self : FarmOptimizer) (pm : Z)
  (cur : list Project) (ups : list InfrastructureUpgrade)
  (fp : FinancialProjection) :
  optimize_with_infrastructure self pm = Ok (cur, ups, fp) ->
  (forall u, In u ups -> In u (dict_values (infrastructure_upgrades self)))
  /\ (List.length ups
      <= List.length (dict_values (infrastructure_upgrades self)))%nat.
Proof.
  unfold optimize_with_infrastructure. intro H.
  destruct (state_after self pm (Z.to_nat pm)) as [sn|e] eqn:Hn; [|discriminate].
  cbn [bind] in H. injection H as _ <- _.
  assert (Hincl : infrastructure_upgrades (self_ sn) = infrastructure_upgrades self
                  /\ forall u, In u (planned_upgrades sn) ->
                       In u (dict_values (infrastructure_upgrades self))).
  { apply (state_after_invariant
             (fun s => infrastructure_upgrades (self_ s)
                       = infrastructure_upgrades self
                       /\ forall u, In u (planned_upgrades s) ->
                            In u (dict_values (infrastructure_upgrades self)))
             self pm) with (k := Z.to_nat pm); [| |exact Hn].
    - split; [reflexivity|intros u []].
    - intros s m s' [Hcat Hin] Hp.
      destruct (period_upgrade_catalogue pm s m s' Hp) as [Hcat' Hin'].
      split; [congruence|]. intros u Hu.
      destruct (Hin' u Hu) as [Hold|Hnew]; [now apply Hin|].
      now rewrite Hcat in Hnew. }
  destruct Hincl as [_ Hincl]. split; [exact Hincl|].
  destruct (reached_planned_bound self pm _ sn Hn) as [_ Hnd].
  apply NoDup_incl_length; [exact Hnd|exact Hincl].
Qed.

Lemma applied_upgrades_from_catalogue_witness :
  exists cur ups fp,
    optimize_with_infrastructure
      (Scenario.optimizer (Scenario.res 20 3000 None)
         [("plants", Scenario.funded_project)]) 12 = Ok (cur, ups, fp)
    /\ (List.length ups <= 3)%nat.
Proof.
  destruct (optimize_with_infrastructure
              (Scenario.optimizer (Scenario.res 20 3000 None)
                 [("plants", Scenario.funded_project)]) 12)
    as [[[cur ups] fp]|e] eqn:E; [|vm_compute in E; discriminate E].
  exists cur, ups, fp. split; [reflexivity|].
  exact (proj2 (applied_upgrades_from_catalogue _ _ _ _ _ E)).
Defined.

Lemma keyed_upgrades_no_project (self : FarmOptimizer) (horizon : Z)
  (us : list InfrastructureUpgrade) :
  exists keyed,
    keyed_upgrades self [] horizon us = Ok keyed
    /\ map fst keyed = us
    /\ forall u k, In (u, k) keyed ->
         (0 < roi_total_cost u horizon -> k == -(1))
         /\ (roi_total_cost u horizon <= 0 -> k = 0).
Proof.
  unfold keyed_upgrades.
  assert (H : forall done,
             (forall u k, In (u, k) done ->
                (0 < roi_total_cost u horizon -> k == -(1))
                /\ (roi_total_cost u horizon <= 0 -> k = 0)) ->
             exists keyed,
               for_each (fun done u =>
                           k <- calculate_infrastructure_roi self u [] horizon ;;
                           Ok (done ++ [(u, k)])%list) us done = Ok keyed
               /\ map fst keyed = (map fst done ++ us)%list
               /\ forall u k, In (u, k) keyed ->
                    (0 < roi_total_cost u horizon -> k == -(1))
                    /\ (roi_total_cost u horizon <= 0 -> k = 0)).
  { induction us as [|u us IH]; intros done Hdone.
    - exists done. cbn [for_each]. rewrite app_nil_r. auto.
    - cbn [for_each].
      destruct (calculate_infrastructure_roi_no_project_value self u horizon)
        as [v [Hv Hkey]].
      rewrite Hv. cbn [bind].
      destruct (IH (done ++ [(u, v)])%list) as [keyed [Hk [Hfst Hall]]].
      + intros u' k' Hin. apply in_app_or in Hin.
        destruct Hin as [Hin|[Heq|[]]]; [now apply Hdone|].
        injection Heq as <- <-. exact Hkey.
      + exists keyed. split; [exact Hk|]. split; [|exact Hall].
        rewrite Hfst, map_app, <- app_assoc. reflexivity. }
  destruct (H []) as [keyed [Hk [Hfst Hall]]]; [intros ? ? []|].
  exists keyed. auto.
Qed.

Lemma py_max_by_first {A : Type} (rest : list (A * Q)) :
  forall x,
    (forall y, In y rest -> snd y <= snd x) ->
    py_max_by x rest = fst x.
Proof.
  unfold py_max_by. induction rest as [|y rest IH]; intros x Hle; [reflexivity|].
  cbn [fold_left].
  assert (Hy : Qlt_bool (snd x) (snd y) = false).
  { apply Qlt_bool_false_iff. apply Hle. now left. }
  rewrite Hy. apply IH. intros z Hz. apply Hle. now right.
Qed.

(** X17.  While no project is active, which is the case in every month of a
    run, the estimator cannot tell upgrades of positive total cost apart:
    the upgrade applied is the first one, in catalogue order, that is not
    yet applied and that the reinvestment amount can pay. *)
Theorem first_affordable_upgrade_is_applied (self : FarmOptimizer)
  (planned : list InfrastructureUpgrade) (amount : Q) (acts : list string)
  (horizon : Z) (u : InfrastructureUpgrade) (rest : list InfrastructureUpgrade) :
  affordable_upgrades self planned amount = u :: rest ->
  (forall u', In u' (u :: rest) -> 0 < roi_total_cost u' horizon) ->
  implement_upgrade self [] planned amount acts horizon
  = (r <- apply_upgrade u (resources self) ;;
     Ok ((planned ++ [u])%list, amount - cost u, r,
         (acts ++ [("Implemented upgrade: " ++ iu_name u)%string])%list)).
Proof.
  intros Haff Hpos. unfold implement_upgrade, best_upgrade. rewrite Haff.
  destruct (keyed_upgrades_no_project self horizon (u :: rest))
    as [keyed [Hk [Hfst Hall]]].
  rewrite Hk. cbn [bind].
  destruct keyed as [|[u0 k0] keyed]; [discriminate|].
  cbn [map fst] in Hfst. injection Hfst as -> Hrest.
  rewrite py_max_by_first; [reflexivity|].
  intros [u1 k1] Hin. cbn [snd].
  assert (Hu1 : In u1 (u :: rest)).
  { right. rewrite <- Hrest. apply in_map_iff. exists (u1, k1). auto. }
  destruct (Hall u1 k1 (or_intror Hin)) as [H1 _].
  destruct (Hall u k0 (or_introl eq_refl)) as [H0 _].
  rewrite (H1 (Hpos u1 Hu1)), (H0 (Hpos u (or_introl eq_refl))).
  apply Qle_refl.
Qed.

Lemma first_affordable_upgrade_is_applied_witness :
  exists r,
    implement_upgrade Scenario.bare [] [] 6000 [] 12
    = Ok ([Scenario.greenhouse], 6000 - 5000, r,
          ["Implemented upgrade: Greenhouse Construction"]).
Proof.
  assert (Haff : affordable_upgrades Scenario.bare [] 6000
                 = Scenario.greenhouse
                   :: [mkInfrastructureUpgrade "Hoop House" 2000
                         [("indoor_space_sqft", 300)] 30
                         [(SPRING, 13 # 10); (SUMMER, 11 # 10);
                          (FALL, 12 # 10); (WINTER, 12 # 10)]])
    by reflexivity.
  rewrite (first_affordable_upgrade_is_applied Scenario.bare [] 6000 [] 12
             _ _ Haff).
  - eexists. vm_compute. reflexivity.
  - intros u' [<-|[<-|[]]]; reflexivity.
Defined.

(** ** The loop: what happens to the catalogue projects *)

Lemma funding_step_refl (entry : string * Project) : funding_step entry entry.
Proof. repeat split. now left. Qed.

Lemma funding_step_trans (a b c : string * Project) :
  funding_step a b -> funding_step b c -> funding_step a c.
Proof.
  intros [Hk1 [Hb1 [Hs1 Hu1]]] [Hk2 [Hb2 [Hs2 Hu2]]].
  split; [congruence|]. split; [congruence|]. split.
  - destruct Hs1 as [Hs1|[Ha Hg1]], Hs2 as [Hs2|[Hb Hg2]].
    + left. congruence.
    + right. split; [congruence|exact Hg2].
    + right. split; [exact Ha|congruence].
    + rewrite Hg1 in Hb. discriminate.
  - intro Hn. rewrite <- (Hu1 Hn). apply Hu2. now rewrite (Hu1 Hn).
Qed.

Lemma Forall2_funding_trans (l1 : dict string Project) :
  forall l2 l3,
    Forall2 funding_step l1 l2 -> Forall2 funding_step l2 l3 ->
    Forall2 funding_step l1 l3.
Proof.
  induction l1 as [|a l1 IH]; intros l2 l3 H12 H23.
  - inversion H12; subst. inversion H23; subst. constructor.
  - inversion H12 as [|? b ? l2' Hab H12']; subst.
    inversion H23 as [|? c ? l3' Hbc H23']; subst.
    constructor; [exact (funding_step_trans a b c Hab Hbc)|].
    exact (IH l2' l3' H12' H23').
Qed.

Lemma fund_project_step (current : list Project)
  (visited : dict string Project) (budget : Q) (acts : list string)
  (entry : string * Project)
  (visited' : dict string Project) (budget' : Q) (acts' : list string) :
  fund_project current (visited, budget, acts) entry
  = Ok (visited', budget', acts') ->
  exists entry',
    visited' = (visited ++ [entry'])%list /\ funding_step entry entry'.
Proof.
  destruct entry as [key p]. unfold fund_project.
  destruct (negb (py_in Project_eqb p current)) eqn:Hin; cbn [andb];
    [|intro H; injection H as <- _ _; exists (key, p);
      split; [reflexivity|apply funding_step_refl]].
  destruct (String.eqb (current_stage p) "setup") eqn:Hs;
    [|intro H; injection H as <- _ _; exists (key, p);
      split; [reflexivity|apply funding_step_refl]].
  apply String.eqb_eq in Hs.
  destruct (funded_so_far p) as [funded|]; [|discriminate].
  destruct (Qle_bool (setup_cost p - funded) budget);
    [|intro H; injection H as <- _ _; exists (key, p);
      split; [reflexivity|apply funding_step_refl]].
  intro H. injection H as <- _ _.
  eexists. split; [reflexivity|].
  match goal with
  | |- context [if ?c then _ else _] => destruct c
  end.
  - split; [reflexivity|]. split; [reflexivity|]. split.
    + right. split; [exact Hs|reflexivity].
    + intro Hn. cbn [snd] in Hn. contradiction.
  - split; [reflexivity|]. split; [reflexivity|]. split.
    + left. reflexivity.
    + intro Hn. cbn [snd] in Hn. contradiction.
Qed.

Lemma fund_projects_steps (current : list Project)
  (catalogue : dict string Project) :
  forall visited budget acts visited' budget' acts',
    for_each (fund_project current) catalogue (visited, budget, acts)
    = Ok (visited', budget', acts') ->
    exists catalogue',
      visited' = (visited ++ catalogue')%list
      /\ Forall2 funding_step catalogue catalogue'.
Proof.
  induction catalogue as [|entry catalogue IH];
    intros visited budget acts visited' budget' acts' H.
  - cbn in H. injection H as <- _ _. exists []. now rewrite app_nil_r.
  - cbn [for_each] in H.
    destruct (fund_project current (visited, budget, acts) entry)
      as [[[v1 b1] a1]|e] eqn:E; [|discriminate].
    cbn [bind] in H. apply fund_project_step in E.
    destruct E as [entry' [-> Hstep]].
    apply IH in H. destruct H as [catalogue' [-> Hall]].
    exists (entry' :: catalogue'). split; [now rewrite <- app_assoc|].
    now constructor.
Qed.

(** X18.  At every month of a run the catalogue of projects has the keys
    and the order it started with; each project differs from what it was
    before the run at most by its stage and its counter; its stage is as
    before or has gone from "setup" to "growth", never to "production"; and
    a project that was not in "setup" before the run is left exactly as it
    was. *)
Theorem catalogue_projects_only_funded (self : FarmOptimizer) (pm : Z)
  (k : nat) (sk : LoopState) :
  state_after self pm k = Ok sk ->
  Forall2 funding_step (projects self) (projects (self_ sk)).
Proof.
  apply (state_after_invariant
           (fun s => Forall2 funding_step (projects self) (projects (self_ s)))).
  - cbn. induction (projects self); constructor;
      [apply funding_step_refl|assumption].
  - intros s m s' Hinv Hp. apply period_inv in Hp.
    destruct Hp as [t [pl [re [r [acts [Ht [_ [_ [_ [Hself _]]]]]]]]]].
    apply month_terms_inv in Ht. destruct Ht as [cat [_ [Hf [Hts _]]]].
    rewrite Hself, Hts. cbn [set_resources set_projects projects].
    unfold fund_projects in Hf. apply fund_projects_steps in Hf.
    destruct Hf as [cat' [-> Hall]]. cbn [app].
    exact (Forall2_funding_trans _ _ _ Hinv Hall).
Qed.

Lemma catalogue_projects_only_funded_witness :
  exists sk,
    state_after (Scenario.optimizer (Scenario.res 20 3000 None)
                   [("plants", Scenario.funded_project)]) 3 2 = Ok sk
    /\ Forall2 funding_step [("plants", Scenario.funded_project)]
                            (projects (self_ sk)).
Proof.
  destruct (state_after (Scenario.optimizer (Scenario.res 20 3000 None)
                           [("plants", Scenario.funded_project)]) 3 2)
    as [sk|e] eqn:E; [|vm_compute in E; discriminate E].
  exists sk. split; [reflexivity|].
  exact (catalogue_projects_only_funded _ _ _ _ E).
Defined.

(** ** The report after a run *)

Lemma py_last_nonempty {A : Type} (xs : list A) :
  xs <> [] -> exists x, py_last xs = Some x.
Proof.
  intro Hne. unfold py_last. destruct (rev xs) as [|x l] eqn:E.
  - exfalso. apply Hne. apply (f_equal (@rev A)) in E.
    now rewrite rev_involutive in E.
  - now exists x.
Qed.

Lemma length_pos_nonempty {A : Type} (xs : list A) (n : nat) :
  List.length xs = S n -> xs <> [].
Proof. intros H ->. discriminate. Qed.

(** X19.  The report on what a run returns, called on the optimiser the run
    has left: it raises [IndexError] when 0 or fewer months were projected;
    after at least one month it raises [ZeroDivisionError] when the savings
    target of the resources is 0, and returns a text otherwise, whatever way
    the numbers are rendered. *)
Theorem generate_enhanced_report_after_run
  (format_fixed : nat -> Q -> string) (self : FarmOptimizer) (pm : Z)
  (s : LoopState) :
  state_after self pm (Z.to_nat pm) = Ok s ->
  ((pm <= 0)%Z ->
   generate_enhanced_report format_fixed (self_ s) (current_projects s)
     (planned_upgrades s) (financial_projection s) = ReportIndexError)
  /\ ((0 < pm)%Z -> target_savings (resources (self_ s)) == 0 ->
      generate_enhanced_report format_fixed (self_ s) (current_projects s)
        (planned_upgrades s) (financial_projection s)
      = ReportRaise ZeroDivisionError)
  /\ ((0 < pm)%Z -> ~ target_savings (resources (self_ s)) == 0 ->
      exists text,
        generate_enhanced_report format_fixed (self_ s) (current_projects s)
          (planned_upgrades s) (financial_projection s) = Report text).
Proof.
  intro Hs.
  destruct (reached_trace self pm _ s Hs) as [_ [Hinv [Hm [_ [Hsv Hw]]]]].
  pose proof (reached_no_active self pm _ s Hs) as Hcur.
  assert (Hacc : List.length (accumulated_savings (financial_projection s))
                 = Z.to_nat pm).
  { rewrite <- Hsv, length_map, <- (length_map month), Hm. apply length_seq. }
  unfold generate_enhanced_report. rewrite Hw, Hcur.
  split; [|split].
  - intro Hle. replace (Z.to_nat pm) with 0%nat in Hacc by lia.
    destruct (accumulated_savings (financial_projection s)); [reflexivity|].
    discriminate.
  - intros Hpos Hz.
    destruct (Z.to_nat pm) as [|n] eqn:En; [lia|].
    destruct (py_last_nonempty _ (length_pos_nonempty _ n Hacc)) as [x ->].
    destruct (py_last_nonempty _ (length_pos_nonempty _ n Hinv)) as [y ->].
    now rewrite (py_div_zero _ _ Hz).
  - intros Hpos Hnz.
    destruct (Z.to_nat pm) as [|n] eqn:En; [lia|].
    destruct (py_last_nonempty _ (length_pos_nonempty _ n Hacc)) as [x ->].
    destruct (py_last_nonempty _ (length_pos_nonempty _ n Hinv)) as [y ->].
    rewrite (py_div_ok _ _ Hnz). cbn [for_each]. eexists. reflexivity.
Qed.

Lemma generate_enhanced_report_after_run_witness :
  exists s text,
    state_after (Scenario.optimizer (Scenario.res 20 3000 None)
                   [("plants", Scenario.funded_project)]) 3 (Z.to_nat 3) = Ok s
    /\ generate_enhanced_report (fun _ _ => "") (self_ s) (current_projects s)
         (planned_upgrades s) (financial_projection s) = Report text.
Proof.
  destruct (state_after (Scenario.optimizer (Scenario.res 20 3000 None)
                           [("plants", Scenario.funded_project)]) 3 (Z.to_nat 3))
    as [s|e] eqn:E; [|vm_compute in E; discriminate E].
  assert (Ht : ~ target_savings (resources (self_ s)) == 0).
  { pose proof E as E'. vm_compute in E'. injection E' as <-. discriminate. }
  destruct (generate_enhanced_report_after_run (fun _ _ => "") _ 3 s E)
    as [_ [_ Hreport]].
  destruct (Hreport eq_refl Ht) as [text Htext].
  exists s, text. split; [reflexivity|exact Htext].
Defined.

(** ** The loop: sign of the budget and of the savings *)

Lemma fund_projects_budget_nonneg (current : list Project)
  (catalogue : dict string Project) :
  forall visited budget acts visited' budget' acts',
    for_each (fund_project current) catalogue (visited, budget, acts)
    = Ok (visited', budget', acts') ->
    0 <= budget -> 0 <= budget'.
Proof.
  induction catalogue as [|[key p] catalogue IH];
    intros visited budget acts visited' budget' acts' H Hb.
  - cbn in H. injection H as _ <- _. exact Hb.
  - cbn [for_each] in H.
    destruct (fund_project current (visited, budget, acts) (key, p))
      as [[[v1 b1] a1]|e] eqn:E; [|discriminate].
    cbn [bind] in H. apply (IH _ _ _ _ _ _ H).
    unfold fund_project in E.
    destruct (negb (py_in Project_eqb p current)
              && String.eqb (current_stage p) "setup");
      [|injection E as _ <- _; exact Hb].
    destruct (funded_so_far p) as [funded|]; [|discriminate].
    destruct (Qle_bool (setup_cost p - funded) budget) eqn:Hle;
      [|injection E as _ <- _; exact Hb].
    injection E as _ <- _. apply Qle_bool_iff in Hle. lra.
Qed.

Lemma implement_upgrade_nonneg (self : FarmOptimizer) (current : list Project)
  (planned : list InfrastructureUpgrade) (amount : Q) (acts : list string)
  (horizon : Z) (planned' : list InfrastructureUpgrade) (amount' : Q)
  (r : Resources) (acts' : list string) :
  implement_upgrade self current planned amount acts horizon
  = Ok (planned', amount', r, acts') ->
  0 <= amount -> 0 <= amount'.
Proof.
  unfold implement_upgrade. intros H Ha.
  destruct (best_upgrade _ _ _ _) as [[u|]|e] eqn:Hb; [| |discriminate].
  - cbn [bind] in H.
    destruct (apply_upgrade u (resources self)) as [r1|e]; [|discriminate].
    cbn [bind] in H. injection H as _ <- _ _.
    apply best_upgrade_In in Hb. apply affordable_upgrades_In in Hb.
    destruct Hb as [_ [_ Hc]]. lra.
  - cbn [bind] in H. injection H as _ <- _ _. exact Ha.
Qed.

(** X20.  In a month that starts with no active project and a budget that
    is not negative, and ends with a reinvestment rate between 0 and 1, the
    budget left for the next month is not negative and the accumulated
    savings do not decrease. *)
Theorem period_budget_and_savings (pm : Z) (s : LoopState) (m : nat)
  (s' : LoopState) :
  period pm s m = Ok s' ->
  current_projects s = [] ->
  0 <= available_budget s ->
  0 <= reinvestment_rate (resources (self_ s')) <= 1 ->
  0 <= available_budget s' /\ accumulated s <= accumulated s'.
Proof.
  intros H Hcur Hb Hrate. unfold period in H.
  destruct (month_terms s m) as [t|e] eqn:Ht; [|discriminate]. cbn [bind] in H.
  destruct (implement_upgrade _ _ _ _ _ _) as [[[[planned re] r] acts]|e] eqn:Hu;
    [|discriminate].
  cbn [bind] in H. injection H as <-.
  destruct (month_terms_no_active s m t Hcur Ht) as [_ [Hr [Hc Hw]]].
  rewrite Hr, Hc, Hw in Hu.
  apply month_terms_inv in Ht. destruct Ht as [cat [_ [Hf _]]].
  unfold fund_projects in Hf.
  pose proof (fund_projects_budget_nonneg _ _ _ _ _ _ _ _ Hf Hb) as Hmb.
  assert (Hre : 0 <= re).
  { apply (implement_upgrade_nonneg _ _ _ _ _ _ _ _ _ _ Hu). lra. }
  unfold close_month in *.
  cbn [available_budget accumulated self_ set_resources resources] in *.
  destruct Hrate as [Hr0 Hr1]. split.
  - now apply Qmult_le_0_compat.
  - assert (Hs : 0 <= re * (1 - reinvestment_rate r))
      by (apply Qmult_le_0_compat; lra).
    lra.
Qed.

Lemma period_budget_and_savings_witness :
  exists s',
    period 3 (initial_state
                (Scenario.optimizer (Scenario.res 20 3000 None)
                   [("plants", Scenario.funded_project)])) 0 = Ok s'
    /\ 0 <= available_budget s'.
Proof.
  destruct (period 3 (initial_state
                        (Scenario.optimizer (Scenario.res 20 3000 None)
                           [("plants", Scenario.funded_project)])) 0)
    as [s'|e] eqn:E; [|vm_compute in E; discriminate E].
  exists s'. split; [reflexivity|].
  apply (period_budget_and_savings 3 _ 0 s' E).
  - reflexivity.
  - discriminate.
  - pose proof E as E'. vm_compute in E'. injection E' as <-.
    split; discriminate.
Defined.
